(** * Technical-indicator engine: [server/python/calculate_indicators.py]

    A shallow embedding of [calculate_indicators] and of the library calls it
    makes, followed by the properties of the engine.

    Conventions of the model.
    - A Python [float] (IEEE double) is an exact rational or [NaN]; rounding,
      overflow and the infinities are outside the model.
    - A Python exception is a value of [exn]; code that may raise lives in the
      error monad [result], and [try ... except Exception as e] is a match on
      it.
    - numpy and pandas calls keep their names inside the modules [np] and
      [pd]; the TA-Lib primitives are the fields of the interface [TALIB],
      which the engine takes as a parameter. TA-Lib is not part of the
      repository: [ta_spec] implements the interface from the recurrences of
      the design (module [ta]). *)

From Stdlib Require Import String Ascii Bool Arith ZArith QArith Qabs Lia Lqa.
From Stdlib Require Import DecimalString List.
Import ListNotations.

Local Open Scope string_scope.
Local Open Scope list_scope.
Local Open Scope nat_scope.

(* ------------------------------------------------------------------ *)
(** ** Exceptions and the error monad *)

(** The exceptions the modelled calls raise; all are subclasses of Python's
    [Exception]. [Exception msg] stands for any other one (a library
    fault). *)
Inductive exn : Type :=
| ValueError (msg : string)
| IndexError (msg : string)
| KeyError (key : string)
| Exception (msg : string).

(** [str(e)] *)
Definition str (e : exn) : string :=
  match e with
  | ValueError msg => msg
  | IndexError msg => msg
  | KeyError key => "'" ++ key ++ "'"
  | Exception msg => msg
  end.

Inductive result (A : Type) : Type :=
| Ok (a : A)
| Raise (e : exn).
Arguments Ok {A} a.
Arguments Raise {A} e.

Definition bind {A B : Type} (c : result A) (k : A -> result B) : result B :=
  match c with
  | Ok a => k a
  | Raise e => Raise e
  end.

Declare Scope result_scope.
Delimit Scope result_scope with result.
Notation "x <- c ;; k" := (bind c (fun x => k))
  (at level 61, c at next level, right associativity) : result_scope.
Notation "' pat <- c ;; k" := (bind c (fun x => match x with pat => k end))
  (at level 61, pat pattern, c at next level, right associativity) : result_scope.

(* ------------------------------------------------------------------ *)
(** ** Numbers *)

(** A double: not-a-number, or a finite value. *)
Inductive float : Type :=
| NaN
| Fin (q : Q).

Definition Qlt_bool (a b : Q) : bool := negb (Qle_bool b a).

(** The result of an arithmetic operation is kept in lowest terms, so that
    equal results are equal terms. *)
Definition num (q : Q) : float := Fin (Qred q).

(** Arithmetic propagates [NaN]. *)
Definition lift2 (f : Q -> Q -> Q) (a b : float) : float :=
  match a, b with
  | Fin p, Fin q => num (f p q)
  | _, _ => NaN
  end.

Definition fadd : float -> float -> float := lift2 Qplus.
Definition fsub : float -> float -> float := lift2 Qminus.
Definition fmul : float -> float -> float := lift2 Qmult.

(** [a / b]; a zero divisor gives no finite value. *)
Definition fdiv (a b : float) : float :=
  match a, b with
  | Fin p, Fin q => if Qeq_bool q 0 then NaN else num (p / q)
  | _, _ => NaN
  end.

(** Comparisons with [NaN] are false. *)
Definition fcmp (test : Q -> Q -> bool) (a b : float) : bool :=
  match a, b with
  | Fin p, Fin q => test p q
  | _, _ => false
  end.

(** [a < b], [a > b], [a == b] on doubles. *)
Definition flt : float -> float -> bool := fcmp Qlt_bool.
Definition fgt (a b : float) : bool := flt b a.
Definition feq : float -> float -> bool := fcmp Qeq_bool.

(** The larger and the smaller of two doubles, [NaN] if either is. *)
Definition fmax (a b : float) : float :=
  match a, b with
  | Fin p, Fin q => if Qle_bool p q then b else a
  | _, _ => NaN
  end.

Definition fmin (a b : float) : float :=
  match a, b with
  | Fin p, Fin q => if Qle_bool p q then a else b
  | _, _ => NaN
  end.

(** Square root, rounded down to a multiple of [2^-32] of the denominator's
    grid: the rational stand-in for the rounded [sqrt] of doubles. It is [0]
    on negative arguments. *)
Definition sqrt_scale : positive := 4294967296.

Definition Qsqrt (q : Q) : Q :=
  Z.sqrt (Qnum q * Z.pos (Qden q) * (Z.pos sqrt_scale * Z.pos sqrt_scale))
  # (Qden q * sqrt_scale).

Definition fsqrt (a : float) : float :=
  match a with
  | NaN => NaN
  | Fin q => num (Qsqrt q)
  end.

Definition Qnat (n : nat) : Q := inject_Z (Z.of_nat n).

(* ------------------------------------------------------------------ *)
(** ** Lists as arrays *)

(** [a[-n:]]: the trailing [min n (len a)] elements. *)
Definition lastn {A : Type} (n : nat) (a : list A) : list A :=
  skipn (length a - n) a.

(** The non-empty prefixes of a list, shortest first: the history available
    at each position. *)
Fixpoint prefixes {A : Type} (xs : list A) : list (list A) :=
  match xs with
  | [] => []
  | x :: r => [x] :: map (cons x) (prefixes r)
  end.

(** A series whose value at each position is [f] of the history up to and
    including that position. *)
Definition rolling {A B : Type} (f : list A -> B) (xs : list A) : list B :=
  map f (prefixes xs).

(** [f] over consecutive pairs (previous, current). *)
Fixpoint pairwise {A B : Type} (f : A -> A -> B) (xs : list A) : list B :=
  match xs with
  | x :: (y :: _) as r => f x y :: pairwise f r
  | _ => []
  end.

Definition map2 {A B C : Type} (f : A -> B -> C) (a : list A) (b : list B)
  : list C :=
  map (fun ab => f (fst ab) (snd ab)) (combine a b).

(* ------------------------------------------------------------------ *)
(** ** Input cells *)

(** A field of a decoded row: [None], a number ([NaN] included, which
    Python's JSON decoder accepts), or a text that [float()] rejects. *)
Inductive cell : Type :=
| JNull
| JNum (x : float)
| JStr (s : string).

(* ------------------------------------------------------------------ *)
(** ** numpy *)

Module np.

(** [np.isnan(x)] *)
Definition isnan (x : float) : bool :=
  match x with
  | NaN => true
  | Fin _ => false
  end.

(** One element of [np.array(..., dtype=float)]: [None] becomes [nan], a
    text raises. A number is taken to be within the double range; the
    [OverflowError] of an integer beyond it is not modelled. *)
Definition to_float (c : cell) : result float :=
  match c with
  | JNull => Ok NaN
  | JNum x => Ok x
  | JStr s => Raise (ValueError ("could not convert string to float: '" ++ s ++ "'"))
  end.

(** [np.array(column, dtype=float)] *)
Fixpoint array (column : list cell) : result (list float) :=
  match column with
  | [] => Ok []
  | c :: r =>
      (x <- to_float c ;;
       xs <- array r ;;
       Ok (x :: xs))%result
  end.

(** [a[-1]] *)
Definition last (a : list float) : result float :=
  match a with
  | [] => Raise (IndexError "index -1 is out of bounds for axis 0 with size 0")
  | x :: r => Ok (List.last r x)
  end.

(** [np.max(a)]: raises on an empty array, is [nan] if any element is. *)
Definition max (a : list float) : result float :=
  match a with
  | [] => Raise (ValueError "zero-size array to reduction operation maximum which has no identity")
  | x :: r => Ok (fold_left fmax r x)
  end.

(** [np.min(a)] *)
Definition min (a : list float) : result float :=
  match a with
  | [] => Raise (ValueError "zero-size array to reduction operation minimum which has no identity")
  | x :: r => Ok (fold_left fmin r x)
  end.

End np.

(* ------------------------------------------------------------------ *)
(** ** pandas *)

Module pd.

(** A frame: its columns by name, in order. *)
Definition frame : Type := list (string * list cell).

(** The width of nested-list data: the length of its longest row. *)
Definition width (data : list (list cell)) : nat :=
  fold_right (fun row w => Nat.max (length row) w) 0 data.

(** Column [j] of nested-list data; a row too short for it holds [None]
    there. *)
Definition column (data : list (list cell)) (j : nat) : list cell :=
  map (fun row => nth j row JNull) data.

Definition string_of_nat (n : nat) : string :=
  NilEmpty.string_of_uint (Nat.to_uint n).

(** [pd.DataFrame(data, columns=columns)] for a list of rows. No data gives
    an empty frame with the named columns; otherwise the rows are laid out
    to the width of the longest, which must be the number of names. *)
Definition DataFrame (data : list (list cell)) (columns : list string)
  : result frame :=
  match data with
  | [] => Ok (map (fun name => (name, [])) columns)
  | _ :: _ =>
      if width data =? length columns
      then Ok (combine columns (map (column data) (seq 0 (length columns))))
      else Raise (ValueError (string_of_nat (length columns)
                              ++ " columns passed, passed data had "
                              ++ string_of_nat (width data) ++ " columns"))
  end.

(** [df[key]] *)
Fixpoint getitem (df : frame) (key : string) : result (list cell) :=
  match df with
  | [] => Raise (KeyError key)
  | (name, col) :: rest => if String.eqb name key then Ok col else getitem rest key
  end.

End pd.

(* ------------------------------------------------------------------ *)
(** ** The TA-Lib interface *)

(** The seven TA-Lib functions the engine calls, with the arguments it
    passes. Each returns arrays of doubles or raises. *)
Record TALIB : Type := {
  RSI : list float -> nat -> result (list float);
  MACD : list float -> nat -> nat -> nat
         -> result (list float * list float * list float);
  BBANDS : list float -> nat -> Q -> Q
           -> result (list float * list float * list float);
  ATR : list float -> list float -> list float -> nat -> result (list float);
  STOCH : list float -> list float -> list float -> nat -> nat -> nat
          -> result (list float * list float);
  SMA : list float -> nat -> result (list float);
  EMA : list float -> nat -> result (list float)
}.

(* ------------------------------------------------------------------ *)
(** ** The returned dictionary *)

Module Macd.
Record t : Type := { macd : option float; signal : option float;
                     histogram : option float }.
End Macd.

Module Bollinger.
Record t : Type := { upper : option float; middle : option float;
                     lower : option float }.
End Bollinger.

Module Stochastic.
Record t : Type := { k : option float; d : option float }.
End Stochastic.

Module MovingAverages.
Record t : Type := { sma_20 : option float; sma_50 : option float;
                     ema_20 : option float; ema_50 : option float }.
End MovingAverages.

(** The value under ['indicators']. A [None] entry is the undefined
    marker. *)
Record indicators : Type := {
  rsi : option float;
  macd : Macd.t;
  bollinger_bands : Bollinger.t;
  atr : option float;
  stochastic : Stochastic.t;
  moving_averages : MovingAverages.t;
  trend : option string;
  support : float;
  resistance : float;
  current_price : float
}.

(** [{'success': True, 'indicators': ...}] or
    [{'success': False, 'error': ...}]. *)
Inductive analysis : Type :=
| Success (ind : indicators)
| Failure (error : string).

Definition success (r : analysis) : bool :=
  match r with
  | Success _ => true
  | Failure _ => false
  end.

(* ------------------------------------------------------------------ *)
(** ** The engine *)

(** Truth value of [x] in [if x] for [x] a float or [None]: [None] and zero
    are false. *)
Definition truthy (x : option float) : bool :=
  match x with
  | None => false
  | Some NaN => true
  | Some (Fin q) => negb (Qeq_bool q 0)
  end.

(** [float(series[-1]) if not np.isnan(series[-1]) else None] *)
Definition current (series : list float) : result (option float) :=
  (v <- np.last series ;;
   Ok (if np.isnan v then None else Some v))%result.

(** The float held by a value that passed the truth test (it is not [None]
    there; [None] is read as [nan] to keep the function total). *)
Definition value (x : option float) : float :=
  match x with
  | Some v => v
  | None => NaN
  end.

Section Engine.

Variable talib : TALIB.

Local Open Scope result_scope.

(** The body of the [try] block, lines 24 to 115. *)
Definition calculate_indicators_body (ohlcv_data : list (list cell))
  : result indicators :=
  df <- pd.DataFrame ohlcv_data
          ["timestamp"; "open"; "high"; "low"; "close"; "volume"] ;;
  close_col <- pd.getitem df "close" ;;
  close <- np.array close_col ;;
  high_col <- pd.getitem df "high" ;;
  high <- np.array high_col ;;
  low_col <- pd.getitem df "low" ;;
  low <- np.array low_col ;;
  volume_col <- pd.getitem df "volume" ;;
  volume <- np.array volume_col ;;
  (* RSI *)
  rsi <- talib.(RSI) close 14 ;;
  current_rsi <- current rsi ;;
  (* MACD *)
  '(macd, macd_signal, macd_hist) <- talib.(MACD) close 12 26 9 ;;
  current_macd <- current macd ;;
  current_macd_signal <- current macd_signal ;;
  current_macd_hist <- current macd_hist ;;
  (* Bollinger Bands *)
  '(upper, middle, lower) <- talib.(BBANDS) close 20 2%Q 2%Q ;;
  current_bb_upper <- current upper ;;
  current_bb_middle <- current middle ;;
  current_bb_lower <- current lower ;;
  (* ATR *)
  atr <- talib.(ATR) high low close 14 ;;
  current_atr <- current atr ;;
  (* Stochastic Oscillator *)
  '(slowk, slowd) <- talib.(STOCH) high low close 14 3 3 ;;
  current_stoch_k <- current slowk ;;
  current_stoch_d <- current slowd ;;
  (* Moving Averages *)
  sma_20 <- talib.(SMA) close 20 ;;
  sma_50 <- talib.(SMA) close 50 ;;
  ema_20 <- talib.(EMA) close 20 ;;
  ema_50 <- talib.(EMA) close 50 ;;
  current_sma_20 <- current sma_20 ;;
  current_sma_50 <- current sma_50 ;;
  current_ema_20 <- current ema_20 ;;
  current_ema_50 <- current ema_50 ;;
  (* Trend *)
  trend <-
    (if truthy current_sma_20 && truthy current_sma_50 then
       up <- (if fgt (value current_sma_20) (value current_sma_50)
              then c <- np.last close ;; Ok (fgt c (value current_sma_20))
              else Ok false) ;;
       if up then Ok (Some "uptrend")
       else
         down <- (if flt (value current_sma_20) (value current_sma_50)
                  then c <- np.last close ;; Ok (flt c (value current_sma_20))
                  else Ok false) ;;
         if down then Ok (Some "downtrend")
         else Ok (Some "sideways")
     else Ok None) ;;
  (* Support and resistance *)
  resistance <- np.max (lastn 20 high) ;;
  support <- np.min (lastn 20 low) ;;
  current_price <- np.last close ;;
  Ok {| rsi := current_rsi;
        macd := {| Macd.macd := current_macd;
                   Macd.signal := current_macd_signal;
                   Macd.histogram := current_macd_hist |};
        bollinger_bands := {| Bollinger.upper := current_bb_upper;
                              Bollinger.middle := current_bb_middle;
                              Bollinger.lower := current_bb_lower |};
        atr := current_atr;
        stochastic := {| Stochastic.k := current_stoch_k;
                         Stochastic.d := current_stoch_d |};
        moving_averages := {| MovingAverages.sma_20 := current_sma_20;
                              MovingAverages.sma_50 := current_sma_50;
                              MovingAverages.ema_20 := current_ema_20;
                              MovingAverages.ema_50 := current_ema_50 |};
        trend := trend;
        support := support;
        resistance := resistance;
        current_price := current_price |}.

(** [calculate_indicators(ohlcv_data)]: the body under
    [try ... except Exception as e]. *)
Definition calculate_indicators (ohlcv_data : list (list cell)) : analysis :=
  match calculate_indicators_body ohlcv_data with
  | Ok ind => Success ind
  | Raise e => Failure (str e)
  end.

End Engine.

(* ------------------------------------------------------------------ *)
(** ** TA-Lib, from the design's table of recurrences *)

Module ta.

Definition fsum (xs : list float) : float := fold_left fadd xs (Fin 0).

(** Arithmetic mean; of no values it is undefined. *)
Definition mean (xs : list float) : float :=
  fdiv (fsum xs) (Fin (Qnat (length xs))).

(** A recursively smoothed series of period [n]: undefined for the first
    [n-1] positions, seeded with the mean of the first [n] values, then
    advanced by [step previous value]. Shorter input gives an all-undefined
    series. *)
Fixpoint run (step : float -> float -> float) (prev : float)
  (xs : list float) : list float :=
  match xs with
  | [] => [prev]
  | x :: r => prev :: run step (step prev x) r
  end.

Definition seeded (step : float -> float -> float) (n : nat)
  (xs : list float) : list float :=
  if length xs <? n then repeat NaN (length xs)
  else repeat NaN (n - 1) ++ run step (mean (firstn n xs)) (skipn n xs).

(** Modelled from the spec: [talib.SMA], a TA-Lib function, is not under
    src/. Section 4.2: the arithmetic mean of the trailing [n] closes,
    warm-up [n-1]. *)
Definition sma_series (n : nat) (xs : list float) : list float :=
  rolling (fun p => if length p <? n then NaN else mean (lastn n p)) xs.

(** Modelled from the spec: [talib.EMA] is not under src/. Section 4.2:
    EMA_0 = SMA(n) over the first [n] closes,
    EMA_i = close * k + EMA_(i-1) * (1 - k), k = 2/(n+1), warm-up [n-1]. *)
Definition ema_step (n : nat) (prev x : float) : float :=
  let k := (2 / (Qnat n + 1))%Q in
  fadd (fmul x (Fin k)) (fmul prev (Fin (1 - k)%Q)).

Definition ema_series (n : nat) (xs : list float) : list float :=
  seeded (ema_step n) n xs.

(** Wilder smoothing: the smoothing factor is [1/n]. *)
Definition wilder_step (n : nat) (prev x : float) : float :=
  fdiv (fadd (fmul prev (Fin (Qnat n - 1)%Q)) x) (Fin (Qnat n)).

Definition wilder (n : nat) (xs : list float) : list float :=
  seeded (wilder_step n) n xs.

(** The gain and the loss of a move from [prev] to [cur]. *)
Definition gain (prev cur : float) : float :=
  match fsub cur prev with
  | NaN => NaN
  | Fin dl => if Qlt_bool 0 dl then Fin dl else Fin 0
  end.

Definition loss (prev cur : float) : float :=
  match fsub cur prev with
  | NaN => NaN
  | Fin dl => if Qlt_bool dl 0 then Fin (- dl) else Fin 0
  end.

Definition rsi_value (avg_gain avg_loss : float) : float :=
  match avg_gain, avg_loss with
  | Fin g, Fin l =>
      if Qeq_bool l 0 then Fin 100
      else num (100 - 100 / (1 + g / l))
  | _, _ => NaN
  end.

(** Modelled from the spec: [talib.RSI] is not under src/. Section 4.2:
    Wilder-smoothed averages of the gains and losses over the trailing [n]
    deltas, RSI = 100 - 100/(1 + avgGain/avgLoss), avgLoss = 0 gives 100;
    warm-up [n]. *)
Definition rsi_series (n : nat) (close : list float) : list float :=
  match close with
  | [] => []
  | _ :: _ =>
      NaN :: map2 rsi_value (wilder n (pairwise gain close))
                            (wilder n (pairwise loss close))
  end.

(** Modelled from the spec: [talib.MACD] is not under src/. Section 4.2:
    MACD = EMA(fast) - EMA(slow); signal = EMA(signal) of the MACD line,
    taken over its defined part; histogram = MACD - signal. *)
Definition shifted (lead : nat) (f : list float -> list float)
  (xs : list float) : list float :=
  firstn (length xs) (repeat NaN lead ++ f (skipn lead xs)).

Definition macd_series (fast slow signal : nat) (close : list float)
  : list float * list float * list float :=
  let line := map2 fsub (ema_series fast close) (ema_series slow close) in
  let sig := shifted (slow - 1) (ema_series signal) line in
  (line, sig, map2 fsub line sig).

(** Modelled from the spec: [talib.BBANDS] is not under src/. Section 4.2:
    middle = SMA(n); stdev = population standard deviation of the trailing
    [n] closes; upper/lower = middle +/- k * stdev; warm-up [n-1]. *)
Definition bands (n : nat) (nbdevup nbdevdn : Q) (p : list float)
  : float * float * float :=
  if length p <? n then (NaN, NaN, NaN)
  else
    let w := lastn n p in
    let m := mean w in
    let stdev := fsqrt (mean (map (fun x => fmul (fsub x m) (fsub x m)) w)) in
    (fadd m (fmul (Fin nbdevup) stdev), m, fsub m (fmul (Fin nbdevdn) stdev)).

Definition bbands_series (n : nat) (nbdevup nbdevdn : Q) (close : list float)
  : list float * list float * list float :=
  let b := rolling (bands n nbdevup nbdevdn) close in
  (map (fun t => fst (fst t)) b, map (fun t => snd (fst t)) b,
   map (fun t => snd t) b).

Definition fabs (a : float) : float :=
  match a with
  | NaN => NaN
  | Fin q => Fin (Qabs q)
  end.

(** TR_i = max(high_i - low_i, |high_i - close_(i-1)|, |low_i - close_(i-1)|) *)
Definition true_range (h l prev_close : float) : float :=
  fmax (fmax (fsub h l) (fabs (fsub h prev_close))) (fabs (fsub l prev_close)).

Definition tr_series (high low close : list float) : list float :=
  map (fun t => true_range (fst (fst t)) (snd (fst t)) (snd t))
      (combine (combine (tl high) (tl low)) close).

(** Modelled from the spec: [talib.ATR] is not under src/. Section 4.2:
    the Wilder-smoothed rolling average of the true range, warm-up [n]. *)
Definition atr_series (n : nat) (high low close : list float) : list float :=
  match close with
  | [] => []
  | _ :: _ => NaN :: wilder n (tr_series high low close)
  end.

Definition highest (xs : list float) : float :=
  match xs with
  | [] => NaN
  | x :: r => fold_left fmax r x
  end.

Definition lowest (xs : list float) : float :=
  match xs with
  | [] => NaN
  | x :: r => fold_left fmin r x
  end.

(** %K_raw at the last bar of the history [p] of (high, low, close):
    100 * (close - min(low, n)) / (max(high, n) - min(low, n)) over the
    trailing [n] bars, undefined before the [n]-th bar. On a flat range (the
    maximum equals the minimum) TA-Lib does not divide and reports 0; the
    design calls that value undefined, and the library is followed here. *)
Definition k_raw (n : nat) (p : list (float * float * float)) : float :=
  if length p <? n then NaN
  else
    let w := lastn n p in
    let hh := highest (map (fun t => fst (fst t)) w) in
    let ll := lowest (map (fun t => snd (fst t)) w) in
    let c := last (map (fun t => snd t) p) NaN in
    if feq hh ll then Fin 0
    else fdiv (fmul (Fin 100) (fsub c ll)) (fsub hh ll).

(** Modelled from the spec: [talib.STOCH] is not under src/. Section 4.2:
    slowK = SMA(slowk) of %K_raw; slowD = SMA(slowd) of slowK. The value of
    %K_raw on a flat range is TA-Lib's, see [k_raw]. *)
Definition stoch_series (fastk slowk slowd : nat)
  (high low close : list float) : list float * list float :=
  let raw := rolling (k_raw fastk) (combine (combine high low) close) in
  let sk := sma_series slowk raw in
  (sk, sma_series slowd sk).

End ta.

(** The TA-Lib functions as the design describes them; none of them
    raises. *)
Definition ta_spec : TALIB := {|
  RSI := fun close n => Ok (ta.rsi_series n close);
  MACD := fun close fast slow signal => Ok (ta.macd_series fast slow signal close);
  BBANDS := fun close n up dn => Ok (ta.bbands_series n up dn close);
  ATR := fun high low close n => Ok (ta.atr_series n high low close);
  STOCH := fun high low close fastk slowk slowd =>
             Ok (ta.stoch_series fastk slowk slowd high low close);
  SMA := fun close n => Ok (ta.sma_series n close);
  EMA := fun close n => Ok (ta.ema_series n close)
|}.

(* ------------------------------------------------------------------ *)
(** ** Series of bars *)

(** One OHLCV observation with finite fields. *)
Record Bar : Type := {
  timestamp : Q; open : Q; high : Q; low : Q; close : Q; volume : Q
}.

(** The row [[timestamp, open, high, low, close, volume]] of a bar. *)
Definition row (b : Bar) : list cell :=
  [JNum (Fin (timestamp b)); JNum (Fin (open b)); JNum (Fin (high b));
   JNum (Fin (low b)); JNum (Fin (close b)); JNum (Fin (volume b))].

Definition rows (series : list Bar) : list (list cell) := map row series.

(** A bar whose six fields are all [x], and [n] of them. *)
Definition flat_bar (x : Q) : Bar :=
  {| timestamp := x; open := x; high := x; low := x; close := x; volume := x |}.

Definition flat_series (n : nat) (x : Q) : list Bar := repeat (flat_bar x) n.

(** A series whose closes climb by one per bar from 1, with high one above
    and low one below the close. *)
Definition ramp_bar (i : nat) : Bar :=
  {| timestamp := Qnat i; open := Qnat i; high := Qnat (i + 2);
     low := Qnat i; close := Qnat (i + 1); volume := 1 |}.

Definition ramp_series (n : nat) : list Bar := map ramp_bar (seq 0 n).

(** A series whose close cycles through 10, 13, 11 with high one above and
    low one below the close. *)
Definition wave_bar (i : nat) : Bar :=
  let c : Q := match i mod 3 with 0 => 10%Q | 1 => 13%Q | _ => 11%Q end in
  {| timestamp := Qnat i; open := c; high := c + 1; low := c - 1;
     close := c; volume := 1 |}.

Definition wave_series (n : nat) : list Bar := map wave_bar (seq 0 n).

(* ------------------------------------------------------------------ *)
(** ** The success path in closed form *)

(** What [current] returns on a non-empty series. *)
Definition latest (series : list float) : option float :=
  let v := last series NaN in
  if np.isnan v then None else Some v.

(** The trend branch of the engine as a function of the two reported moving
    averages and the last close. *)
Definition trend_of (s20 s50 : option float) (c : float) : option string :=
  if truthy s20 && truthy s50 then
    if fgt (value s20) (value s50) && fgt c (value s20) then Some "uptrend"
    else if flt (value s20) (value s50) && flt c (value s20) then Some "downtrend"
    else Some "sideways"
  else None.

(** The dictionary the engine builds from the three arrays when every step
    succeeds and TA-Lib is [ta_spec]. *)
Definition snapshot (close high low : list float) : indicators :=
  let m := ta.macd_series 12 26 9 close in
  let b := ta.bbands_series 20 2 2 close in
  let st := ta.stoch_series 14 3 3 high low close in
  let s20 := latest (ta.sma_series 20 close) in
  let s50 := latest (ta.sma_series 50 close) in
  {| rsi := latest (ta.rsi_series 14 close);
     macd := {| Macd.macd := latest (fst (fst m));
                Macd.signal := latest (snd (fst m));
                Macd.histogram := latest (snd m) |};
     bollinger_bands := {| Bollinger.upper := latest (fst (fst b));
                           Bollinger.middle := latest (snd (fst b));
                           Bollinger.lower := latest (snd b) |};
     atr := latest (ta.atr_series 14 high low close);
     stochastic := {| Stochastic.k := latest (fst st);
                      Stochastic.d := latest (snd st) |};
     moving_averages := {| MovingAverages.sma_20 := s20;
                           MovingAverages.sma_50 := s50;
                           MovingAverages.ema_20 := latest (ta.ema_series 20 close);
                           MovingAverages.ema_50 := latest (ta.ema_series 50 close) |};
     trend := trend_of s20 s50 (last close NaN);
     support := ta.lowest (lastn 20 low);
     resistance := ta.highest (lastn 20 high);
     current_price := last close NaN |}.

(** The arrays of the high, low, close and volume columns of well-formed
    bars. *)
Definition floats (field : Bar -> Q) (series : list Bar) : list float :=
  map (fun b => Fin (field b)) series.

(** Predicates on doubles used in the statements. *)
Definition undefined_or (P : Q -> Prop) (x : float) : Prop :=
  match x with
  | NaN => True
  | Fin q => P q
  end.


(** Rows that agree outside the timestamp and open fields. *)
Definition same_hlcv (r1 r2 : list cell) : Prop :=
  length r1 = 6 /\ length r2 = 6 /\ skipn 2 r1 = skipn 2 r2.

(** A row of the wrong arity, or with a field that is not a finite number. *)
Definition finite_cell (c : cell) : bool :=
  match c with
  | JNum (Fin _) => true
  | _ => false
  end.

Definition malformed_row (r : list cell) : bool :=
  negb (length r =? 6) || negb (forallb finite_cell r).

(* ------------------------------------------------------------------ *)
(** ** Sample inputs *)

Definition one : cell := JNum (Fin 1).

(** A six-field row followed by a five-field row. *)
Definition ragged_rows : list (list cell) :=
  [[one; one; one; one; one; one]; [JNum (Fin 2); one; one; one; one]].

(** One row whose volume is NaN. *)
Definition nan_volume_rows : list (list cell) :=
  [[one; one; one; one; one; JNum NaN]].

(** One row whose volume is null. *)
Definition null_volume_rows : list (list cell) :=
  [[one; one; one; one; one; JNull]].

(** One row whose timestamp is a text. *)
Definition text_timestamp_rows : list (list cell) :=
  [[JStr "2024-01-01"; one; one; one; one; one]].

(** One row whose close is a text. *)
Definition text_close_rows : list (list cell) :=
  [[one; one; one; one; JStr "abc"; one]].

(** A bar with its timestamp and open replaced. *)
Definition restamped (b : Bar) : Bar :=
  {| timestamp := 0; open := 1000; high := high b; low := low b;
     close := close b; volume := volume b |}.

(** One step of reading an equation [... = Ok _] through a bind. *)
Ltac bind_step H :=
  match type of H with
  | bind ?c _ = Ok _ =>
      let E := fresh "E" in
      destruct c eqn:E; cbn [bind] in H; [|discriminate H]
  | match ?x with _ => _ end = Ok _ => destruct x
  end.

(* ------------------------------------------------------------------ *)
(** ** Loaded columns *)

(** The first text of a column, if it has one: the element at which
    [np.array(column, dtype=float)] stops. *)
Fixpoint first_text (column : list cell) : option string :=
  match column with
  | [] => None
  | JStr s :: _ => Some s
  | _ :: r => first_text r
  end.

(** The double a field that is not a text is loaded as. *)
Definition cell_value (c : cell) : float :=
  match c with
  | JNum x => x
  | _ => NaN
  end.

(** The fourteen values the engine reports as a number or [None]. *)
Definition reported (ind : indicators) : list (option float) :=
  [rsi ind;
   Macd.macd (macd ind); Macd.signal (macd ind); Macd.histogram (macd ind);
   Bollinger.upper (bollinger_bands ind); Bollinger.middle (bollinger_bands ind);
   Bollinger.lower (bollinger_bands ind);
   atr ind;
   Stochastic.k (stochastic ind); Stochastic.d (stochastic ind);
   MovingAverages.sma_20 (moving_averages ind);
   MovingAverages.sma_50 (moving_averages ind);
   MovingAverages.ema_20 (moving_averages ind);
   MovingAverages.ema_50 (moving_averages ind)].

(** Rows of six fields with the same high, low and close, whose volume
    fields are not texts. *)
Definition is_text (c : cell) : bool :=
  match c with
  | JStr _ => true
  | _ => false
  end.

Definition same_hlc (r1 r2 : list cell) : Prop :=
  length r1 = 6 /\ length r2 = 6 /\
  nth 2 r1 JNull = nth 2 r2 JNull /\ nth 3 r1 JNull = nth 3 r2 JNull /\
  nth 4 r1 JNull = nth 4 r2 JNull /\
  is_text (nth 5 r1 JNull) = false /\ is_text (nth 5 r2 JNull) = false.

(** A field that loads as NaN. *)
Definition loads_nan (c : cell) : bool :=
  match c with
  | JNull | JNum NaN => true
  | _ => false
  end.

(** One row whose high is null. *)
Definition null_high_rows : list (list cell) :=
  [[one; one; JNull; one; one; one]].

(** The wave with every volume replaced. *)
Definition revolumed (b : Bar) : Bar :=
  {| timestamp := timestamp b; open := open b; high := high b; low := low b;
     close := close b; volume := 77 |}.

(** The largest finite double. A number field stands for the double it is
    loaded as. An integer beyond the double range is not loaded at all:
    [float()] raises [OverflowError] on it, and [np.to_float] has no case for
    that; statements about what succeeds keep the numbers within the
    range. *)
Definition double_max : Q := inject_Z (2 ^ 1024 - 2 ^ 971).

Definition representable_cell (c : cell) : bool :=
  match c with
  | JNum (Fin q) => Qle_bool (Qabs q) double_max
  | _ => true
  end.

(** Every number of the input, in any column, is within the double range. *)
Definition representable (data : list (list cell)) : Prop :=
  forallb (forallb representable_cell) data = true.

(** An input the engine can load: at least one row, the longest of six
    fields, and no text in the four columns it converts. *)
Definition loadable (data : list (list cell)) : Prop :=
  data <> [] /\ pd.width data = 6 /\
  forall j, In j [2; 3; 4; 5] -> first_text (pd.column data j) = None.


(* ------------------------------------------------------------------ *)
(** ** The command-line entry point *)

(** A decoded JSON document, as far as the script tells values apart: a list
    of rows whose fields are null, numbers or texts, a dictionary, or any
    other value (a number, a string, [None], a boolean, any other list). A
    dictionary holds each key once. *)
#[warnings="-register-all"]
Inductive payload : Type :=
| Table (table : list (list cell))
| Dict (items : list (string * payload))
| Other.

(** [d.get(key)] on the items of a dictionary. *)
Fixpoint lookup (items : list (string * payload)) (key : string)
  : option payload :=
  match items with
  | [] => None
  | (name, v) :: rest => if String.eqb name key then Some v else lookup rest key
  end.

(** What the script writes to standard output, and its exit status. *)
Record process : Type := { stdout : analysis; exit_code : Z }.

Section Main.

Variable talib : TALIB.

(** [json.loads]: the decoder is not part of the model; it returns a
    document or raises. *)
Variable loads : string -> result payload.

(** The message of the [TypeError] raised by indexing a value that is not a
    dictionary with a string. *)
Variable not_subscriptable : payload -> string.

(** [calculate_indicators] on an argument that is not a list of rows; its
    [try ... except] makes it return a dictionary there too. *)
Variable calculate_other : payload -> analysis.

(** [input_data['ohlcv']] *)
Definition getitem_ohlcv (input_data : payload) : result payload :=
  match input_data with
  | Dict items =>
      match lookup items "ohlcv" with
      | Some v => Ok v
      | None => Raise (KeyError "ohlcv")
      end
  | _ => Raise (Exception (not_subscriptable input_data))
  end.

Definition calculate (ohlcv : payload) : analysis :=
  match ohlcv with
  | Table table => calculate_indicators talib table
  | _ => calculate_other ohlcv
  end.

(** The [__main__] block, lines 123 to 141. [json.dumps] of a result
    dictionary does not raise, and [sys.exit(0)] raises [SystemExit], which
    [except Exception] does not catch. *)
Definition main (stdin : string) : process :=
  match (input_data <- loads stdin ;;
         ohlcv <- getitem_ohlcv input_data ;;
         Ok (calculate ohlcv))%result with
  | Ok result => {| stdout := result; exit_code := 0 |}
  | Raise e => {| stdout := Failure (str e); exit_code := 1 |}
  end.

End Main.

(** A decoder that returns the same outcome for every text, and the
    parameters of [main] used in examples. *)
Definition decoded (outcome : result payload) : string -> result payload :=
  fun _ => outcome.

Definition no_text : payload -> string := fun _ => EmptyString.

Definition no_other : payload -> analysis := fun _ => Failure EmptyString.

(* ================================================================== *)
(** * Properties *)

(** ** Lists *)

Lemma last_cons_default {A : Type} (x : A) (r : list A) (d : A) :
  last (x :: r) d = last r x.
Proof.
  revert x d. induction r as [|y r IH]; intros x d; [reflexivity|].
  change (last (x :: y :: r) d) with (last (y :: r) d).
  now rewrite !IH.
Qed.

Lemma last_map {A B : Type} (f : A -> B) (l : list A) (d : A) :
  last (map f l) (f d) = f (last l d).
Proof.
  induction l as [|x [|y r] IH]; try reflexivity.
  exact IH.
Qed.

Lemma last_nonempty_default {A : Type} (l : list A) (d d' : A) :
  l <> [] -> last l d = last l d'.
Proof.
  destruct l as [|x r]; [congruence|]. intros _.
  now rewrite !last_cons_default.
Qed.

Lemma Forall_last {A : Type} (P : A -> Prop) (l : list A) (d : A) :
  Forall P l -> P d -> P (last l d).
Proof.
  induction 1 as [|x r Hx Hr IH]; intros Hd; [exact Hd|].
  rewrite last_cons_default. destruct r; [exact Hx|].
  rewrite (last_nonempty_default _ x d) by discriminate. now apply IH.
Qed.

Lemma length_nonempty {A : Type} (l : list A) : 0 < length l <-> l <> [].
Proof.
  destruct l; simpl; split; intros; try lia; congruence.
Qed.

Lemma prefixes_length {A : Type} (xs : list A) :
  length (prefixes xs) = length xs.
Proof.
  induction xs as [|x r IH]; simpl; [reflexivity|].
  now rewrite length_map, IH.
Qed.

Lemma rolling_length {A B : Type} (f : list A -> B) (xs : list A) :
  length (rolling f xs) = length xs.
Proof. unfold rolling. now rewrite length_map, prefixes_length. Qed.

Lemma last_prefixes {A : Type} (xs : list A) :
  xs <> [] -> last (prefixes xs) [] = xs.
Proof.
  induction xs as [|x r IH]; [congruence|]. intros _.
  simpl prefixes. rewrite last_cons_default.
  destruct r as [|y r]; [reflexivity|].
  rewrite (last_map (cons x) _ []). f_equal. apply IH. discriminate.
Qed.

Lemma last_rolling {A B : Type} (f : list A -> B) (xs : list A) (dflt : B) :
  xs <> [] -> last (rolling f xs) dflt = f xs.
Proof.
  intros H. unfold rolling.
  rewrite (last_nonempty_default _ dflt (f [])).
  - rewrite last_map. now rewrite last_prefixes.
  - rewrite <- length_nonempty, length_map, prefixes_length.
    now apply length_nonempty.
Qed.



Lemma lastn_length {A : Type} (n : nat) (a : list A) :
  length (lastn n a) = Nat.min n (length a).
Proof. unfold lastn. rewrite length_skipn. lia. Qed.

Lemma lastn_map {A B : Type} (f : A -> B) (n : nat) (a : list A) :
  lastn n (map f a) = map f (lastn n a).
Proof. unfold lastn. now rewrite length_map, skipn_map. Qed.

Lemma pairwise_length {A B : Type} (f : A -> A -> B) (xs : list A) :
  length (pairwise f xs) = length xs - 1.
Proof.
  induction xs as [|x [|y r] IH]; try reflexivity.
  change (pairwise f (x :: y :: r)) with (f x y :: pairwise f (y :: r)).
  simpl length in *. rewrite IH. lia.
Qed.

Lemma map2_length {A B C : Type} (f : A -> B -> C) (a : list A) (b : list B) :
  length (map2 f a b) = Nat.min (length a) (length b).
Proof. unfold map2. now rewrite length_map, length_combine. Qed.

Lemma Forall_map2 {A B C : Type} (f : A -> B -> C) (P : A -> Prop)
  (Q : B -> Prop) (R : C -> Prop) (a : list A) (b : list B) :
  (forall x y, P x -> Q y -> R (f x y)) ->
  Forall P a -> Forall Q b -> Forall R (map2 f a b).
Proof.
  intros Hf Ha. revert b. induction Ha as [|x a Hx Ha IH]; intros b Hb.
  - constructor.
  - destruct Hb as [|y b Hy Hb]; [constructor|].
    unfold map2. simpl. constructor; [now apply Hf|]. now apply IH.
Qed.

(** ** Lengths of the series *)

Lemma run_length (step : float -> float -> float) (prev : float) (xs : list float) :
  length (ta.run step prev xs) = S (length xs).
Proof.
  revert prev. induction xs as [|x r IH]; intros prev; simpl; [reflexivity|].
  now rewrite IH.
Qed.

Lemma seeded_length (step : float -> float -> float) (n : nat) (xs : list float) :
  1 <= n -> length (ta.seeded step n xs) = length xs.
Proof.
  intros Hn. unfold ta.seeded.
  destruct (length xs <? n) eqn:E.
  - apply repeat_length.
  - apply Nat.ltb_ge in E.
    rewrite length_app, repeat_length, run_length, length_skipn. lia.
Qed.

Lemma sma_length (n : nat) (xs : list float) :
  length (ta.sma_series n xs) = length xs.
Proof. apply rolling_length. Qed.

Lemma ema_length (n : nat) (xs : list float) :
  1 <= n -> length (ta.ema_series n xs) = length xs.
Proof. apply seeded_length. Qed.

Lemma wilder_length (n : nat) (xs : list float) :
  1 <= n -> length (ta.wilder n xs) = length xs.
Proof. apply seeded_length. Qed.

Lemma rsi_length (n : nat) (close : list float) :
  1 <= n -> length (ta.rsi_series n close) = length close.
Proof.
  intros Hn. destruct close as [|c r]; [reflexivity|].
  unfold ta.rsi_series. cbn [length].
  rewrite map2_length, !wilder_length, !pairwise_length by assumption.
  simpl. lia.
Qed.

Lemma shifted_length (lead : nat) (f : list float -> list float) (xs : list float) :
  (forall ys, length (f ys) = length ys) ->
  length (ta.shifted lead f xs) = length xs.
Proof.
  intros Hf. unfold ta.shifted.
  rewrite length_firstn, length_app, repeat_length, Hf, length_skipn. lia.
Qed.

Lemma macd_length (fast slow signal : nat) (close : list float) :
  1 <= fast -> 1 <= slow -> 1 <= signal ->
  let '(line, sig, hist) := ta.macd_series fast slow signal close in
  length line = length close /\ length sig = length close
  /\ length hist = length close.
Proof.
  intros Hf Hs Hg. unfold ta.macd_series.
  assert (Hl : length (map2 fsub (ta.ema_series fast close) (ta.ema_series slow close))
               = length close)
    by (rewrite map2_length, !ema_length by assumption; lia).
  assert (Hsig : forall xs, length (ta.shifted (slow - 1) (ta.ema_series signal) xs)
                            = length xs)
    by (intros xs; apply shifted_length; intros ys; now apply ema_length).
  repeat split.
  - exact Hl.
  - now rewrite Hsig.
  - rewrite map2_length, Hsig, Hl. lia.
Qed.

Lemma bbands_length (n : nat) (up dn : Q) (close : list float) :
  let '(upper, middle, lower) := ta.bbands_series n up dn close in
  length upper = length close /\ length middle = length close
  /\ length lower = length close.
Proof.
  unfold ta.bbands_series. now rewrite !length_map, rolling_length.
Qed.

Lemma tr_length (high low close : list float) :
  length high = length close -> length low = length close ->
  length (ta.tr_series high low close) = length close - 1.
Proof.
  intros Hh Hl. unfold ta.tr_series.
  rewrite length_map, !length_combine.
  destruct high, low; simpl in *; lia.
Qed.

Lemma atr_length (n : nat) (high low close : list float) :
  1 <= n -> length high = length close -> length low = length close ->
  length (ta.atr_series n high low close) = length close.
Proof.
  intros Hn Hh Hl. unfold ta.atr_series.
  destruct close as [|c r] eqn:E; [reflexivity|]. rewrite <- E in *.
  cbn [length]. rewrite wilder_length, tr_length by assumption.
  rewrite E. simpl. lia.
Qed.

Lemma stoch_length (fastk slowk slowd : nat) (high low close : list float) :
  length high = length close -> length low = length close ->
  let '(sk, sd) := ta.stoch_series fastk slowk slowd high low close in
  length sk = length close /\ length sd = length close.
Proof.
  intros Hh Hl. unfold ta.stoch_series.
  rewrite !sma_length, rolling_length, !length_combine. lia.
Qed.

(** ** Steps of the engine that cannot fail on non-empty arrays *)

Lemma np_last_Ok (a : list float) : a <> [] -> np.last a = Ok (last a NaN).
Proof.
  destruct a as [|x r]; [congruence|]. intros _.
  unfold np.last. now rewrite last_cons_default.
Qed.

Lemma current_Ok (series : list float) :
  series <> [] -> current series = Ok (latest series).
Proof.
  intros H. unfold current. rewrite np_last_Ok by assumption. reflexivity.
Qed.

Lemma np_max_Ok (a : list float) : a <> [] -> np.max a = Ok (ta.highest a).
Proof. destruct a; [congruence|reflexivity]. Qed.

Lemma np_min_Ok (a : list float) : a <> [] -> np.min a = Ok (ta.lowest a).
Proof. destruct a; [congruence|reflexivity]. Qed.

Lemma np_array_length (column : list cell) (a : list float) :
  np.array column = Ok a -> length a = length column.
Proof.
  revert a. induction column as [|c r IH]; intros a H; simpl in H.
  - now inversion H.
  - destruct (np.to_float c); simpl in H; [|discriminate].
    destruct (np.array r) as [xs|]; simpl in H; [|discriminate].
    inversion H; subst. simpl. now rewrite (IH xs).
Qed.

Lemma nonempty_of_length {A B : Type} (a : list A) (b : list B) :
  length a = length b -> b <> [] -> a <> [].
Proof. destruct a, b; simpl; congruence. Qed.

Lemma trend_Ok (s20 s50 : option float) (close : list float) :
  close <> [] ->
  (if truthy s20 && truthy s50 then
     bind (if fgt (value s20) (value s50)
           then bind (np.last close) (fun c => Ok (fgt c (value s20)))
           else Ok false)
       (fun up =>
          if up then Ok (Some "uptrend")
          else
            bind (if flt (value s20) (value s50)
                  then bind (np.last close) (fun c => Ok (flt c (value s20)))
                  else Ok false)
              (fun down =>
                 if down then Ok (Some "downtrend") else Ok (Some "sideways")))
   else Ok None)
  = Ok (trend_of s20 s50 (last close NaN)).
Proof.
  intros H. unfold trend_of. rewrite np_last_Ok by assumption.
  destruct (truthy s20 && truthy s50); [|reflexivity].
  destruct (fgt (value s20) (value s50)); simpl.
  - destruct (fgt (last close NaN) (value s20)); [reflexivity|].
    destruct (flt (value s20) (value s50)); simpl; [|reflexivity].
    now destruct (flt (last close NaN) (value s20)).
  - destruct (flt (value s20) (value s50)); simpl; [|reflexivity].
    now destruct (flt (last close NaN) (value s20)).
Qed.

(** ** The engine on arrays that load *)

Lemma DataFrame_six (data : list (list cell)) :
  data <> [] -> pd.width data = 6 ->
  pd.DataFrame data ["timestamp"; "open"; "high"; "low"; "close"; "volume"]
  = Ok [("timestamp", pd.column data 0); ("open", pd.column data 1);
        ("high", pd.column data 2); ("low", pd.column data 3);
        ("close", pd.column data 4); ("volume", pd.column data 5)].
Proof.
  intros Hne Hw. unfold pd.DataFrame. destruct data; [congruence|].
  rewrite Hw. reflexivity.
Qed.

Lemma body_spec_Ok (data : list (list cell)) (close high low volume : list float) :
  data <> [] -> pd.width data = 6 ->
  np.array (pd.column data 4) = Ok close ->
  np.array (pd.column data 2) = Ok high ->
  np.array (pd.column data 3) = Ok low ->
  np.array (pd.column data 5) = Ok volume ->
  calculate_indicators_body ta_spec data = Ok (snapshot close high low).
Proof.
  intros Hne Hw Hc Hh Hl Hv.
  assert (Lc : length close = length data)
    by (rewrite (np_array_length _ _ Hc); apply length_map).
  assert (Lh : length high = length close)
    by (rewrite Lc, (np_array_length _ _ Hh); apply length_map).
  assert (Ll : length low = length close)
    by (rewrite Lc, (np_array_length _ _ Hl); apply length_map).
  assert (Nc : close <> []).
  { apply length_nonempty. rewrite Lc. now apply length_nonempty. }
  assert (NE : forall s : list float, length s = length close -> s <> [])
    by (intros s Hs; now apply (nonempty_of_length s close)).
  unfold calculate_indicators_body, snapshot.
  rewrite DataFrame_six by assumption.
  cbn [bind pd.getitem String.eqb Ascii.eqb Bool.eqb].
  rewrite Hc, Hh, Hl, Hv. cbn [bind ta_spec RSI MACD BBANDS ATR STOCH SMA EMA].
  pose proof (macd_length 12 26 9 close) as Hm.
  destruct (ta.macd_series 12 26 9 close) as [[line sig] hist].
  destruct Hm as (Hm1 & Hm2 & Hm3); try lia.
  pose proof (bbands_length 20 2 2 close) as Hb.
  destruct (ta.bbands_series 20 2 2 close) as [[upper middle] lower].
  destruct Hb as (Hb1 & Hb2 & Hb3).
  pose proof (stoch_length 14 3 3 high low close Lh Ll) as Hs.
  destruct (ta.stoch_series 14 3 3 high low close) as [sk sd].
  destruct Hs as (Hs1 & Hs2).
  rewrite !current_Ok
    by (apply NE; first [assumption | apply sma_length
                        | apply ema_length; lia | apply rsi_length; lia
                        | apply atr_length; (lia || assumption)]).
  cbn [bind].
  rewrite trend_Ok by assumption. cbn [bind].
  rewrite np_max_Ok, np_min_Ok, np_last_Ok; try assumption.
  - reflexivity.
  - apply length_nonempty. rewrite lastn_length, Ll.
    apply length_nonempty in Nc. lia.
  - apply length_nonempty. rewrite lastn_length, Lh.
    apply length_nonempty in Nc. lia.
Qed.

Lemma body_spec_inv (data : list (list cell)) (ind : indicators) :
  calculate_indicators_body ta_spec data = Ok ind ->
  data <> [] /\ pd.width data = 6 /\
  exists close high low volume,
    np.array (pd.column data 4) = Ok close /\
    np.array (pd.column data 2) = Ok high /\
    np.array (pd.column data 3) = Ok low /\
    np.array (pd.column data 5) = Ok volume /\
    ind = snapshot close high low.
Proof.
  intros H.
  destruct data as [|r0 rest] eqn:Ed; [vm_compute in H; discriminate|].
  rewrite <- Ed in *.
  assert (Hne : data <> []) by (rewrite Ed; discriminate).
  destruct (pd.width data =? 6) eqn:Ew.
  - apply Nat.eqb_eq in Ew.
    split; [exact Hne|]. split; [exact Ew|].
    destruct (np.array (pd.column data 4)) as [close|e] eqn:Hc.
    2:{ unfold calculate_indicators_body in H.
        rewrite DataFrame_six in H by assumption.
        cbn [bind pd.getitem String.eqb Ascii.eqb Bool.eqb] in H.
        rewrite Hc in H. discriminate. }
    destruct (np.array (pd.column data 2)) as [high|e] eqn:Hh.
    2:{ unfold calculate_indicators_body in H.
        rewrite DataFrame_six in H by assumption.
        cbn [bind pd.getitem String.eqb Ascii.eqb Bool.eqb] in H.
        rewrite Hc, Hh in H. discriminate. }
    destruct (np.array (pd.column data 3)) as [low|e] eqn:Hl.
    2:{ unfold calculate_indicators_body in H.
        rewrite DataFrame_six in H by assumption.
        cbn [bind pd.getitem String.eqb Ascii.eqb Bool.eqb] in H.
        rewrite Hc, Hh, Hl in H. discriminate. }
    destruct (np.array (pd.column data 5)) as [volume|e] eqn:Hv.
    2:{ unfold calculate_indicators_body in H.
        rewrite DataFrame_six in H by assumption.
        cbn [bind pd.getitem String.eqb Ascii.eqb Bool.eqb] in H.
        rewrite Hc, Hh, Hl, Hv in H. discriminate. }
    exists close, high, low, volume. repeat split; try reflexivity.
    rewrite (body_spec_Ok data close high low volume) in H by assumption.
    now inversion H.
  - unfold calculate_indicators_body, pd.DataFrame in H.
    rewrite Ed in H. rewrite <- Ed in H.
    change (length ["timestamp"; "open"; "high"; "low"; "close"; "volume"]) with 6 in H.
    rewrite Ew in H. discriminate.
Qed.

Lemma spec_success_inv (data : list (list cell)) (ind : indicators) :
  calculate_indicators ta_spec data = Success ind ->
  exists close high low,
    np.array (pd.column data 4) = Ok close /\
    np.array (pd.column data 2) = Ok high /\
    np.array (pd.column data 3) = Ok low /\
    length close = length data /\ length high = length data /\
    length low = length data /\ data <> [] /\
    ind = snapshot close high low.
Proof.
  unfold calculate_indicators. intros H.
  destruct (calculate_indicators_body ta_spec data) as [s|e] eqn:E; [|discriminate].
  inversion H; subst s.
  apply body_spec_inv in E.
  destruct E as (Hne & _ & close & high & low & volume & Hc & Hh & Hl & _ & ->).
  exists close, high, low.
  repeat split; try assumption;
    match goal with
    | Ha : np.array ?col = Ok ?a |- length ?a = _ =>
        rewrite (np_array_length _ _ Ha); apply length_map
    end.
Qed.

(** ** Well-formed bars always load *)

Lemma rows_width (series : list Bar) : series <> [] -> pd.width (rows series) = 6.
Proof.
  induction series as [|b r IH]; [congruence|]. intros _.
  destruct r as [|b' r]; [reflexivity|].
  change (pd.width (rows (b :: b' :: r)))
    with (Nat.max 6 (pd.width (rows (b' :: r)))).
  rewrite IH by discriminate. reflexivity.
Qed.

Lemma np_array_nums (xs : list float) : np.array (map JNum xs) = Ok xs.
Proof.
  induction xs as [|x r IH]; [reflexivity|].
  simpl. rewrite IH. reflexivity.
Qed.

Lemma rows_column (series : list Bar) (j : nat) (field : Bar -> Q) :
  (forall b, nth j (row b) JNull = JNum (Fin (field b))) ->
  np.array (pd.column (rows series) j) = Ok (floats field series).
Proof.
  intros H. unfold pd.column, rows, floats.
  rewrite map_map. rewrite <- np_array_nums. f_equal.
  rewrite map_map. apply map_ext. exact H.
Qed.

Lemma calculate_bars (series : list Bar) :
  series <> [] ->
  calculate_indicators ta_spec (rows series)
  = Success (snapshot (floats close series) (floats high series)
                      (floats low series)).
Proof.
  intros Hne. unfold calculate_indicators.
  rewrite (body_spec_Ok (rows series) (floats close series)
             (floats high series) (floats low series) (floats volume series)).
  - reflexivity.
  - unfold rows. destruct series; [congruence|discriminate].
  - now apply rows_width.
  - now apply rows_column.
  - now apply rows_column.
  - now apply rows_column.
  - now apply rows_column.
Qed.

(* ================================================================== *)
(** ** Properties that hold for any TA-Lib *)

Lemma body_nonempty (talib : TALIB) (data : list (list cell)) (ind : indicators) :
  calculate_indicators_body talib data = Ok ind -> data <> [].
Proof.
  intros H ->. unfold calculate_indicators_body in H.
  cbn [pd.DataFrame map bind pd.getitem String.eqb Ascii.eqb Bool.eqb np.array]
    in H.
  repeat bind_step H.
  all: match goal with
       | E : np.max (lastn 20 []) = Ok _ |- _ => discriminate E
       end.
Qed.

Lemma nth_of_skipn_eq {A : Type} (k j : nat) (r1 r2 : list A) (d : A) :
  skipn k r1 = skipn k r2 -> k <= j -> nth j r1 d = nth j r2 d.
Proof.
  intros H Hj. replace j with (k + (j - k)) by lia.
  now rewrite <- !nth_skipn, H.
Qed.

Lemma same_hlcv_width (d1 d2 : list (list cell)) :
  Forall2 same_hlcv d1 d2 -> pd.width d1 = pd.width d2 /\ (d1 <> [] -> pd.width d1 = 6).
Proof.
  intros H. induction H as [|r1 r2 d1 d2 (H1 & H2 & _) Hd (IHw & IH6)].
  - split; [reflexivity|congruence].
  - simpl. rewrite H1, H2, IHw. split; [reflexivity|intros _].
    destruct d1 as [|r d1]; [inversion Hd; reflexivity|].
    rewrite <- IHw, IH6 by discriminate. reflexivity.
Qed.

Lemma same_hlcv_column (d1 d2 : list (list cell)) (j : nat) :
  Forall2 same_hlcv d1 d2 -> 2 <= j -> pd.column d1 j = pd.column d2 j.
Proof.
  intros H Hj. induction H as [|r1 r2 d1 d2 (_ & _ & Hs) _ IH]; [reflexivity|].
  unfold pd.column in *. simpl. rewrite IH. f_equal.
  now apply (nth_of_skipn_eq 2).
Qed.

Lemma body_reads_hlcv (talib : TALIB) (d1 d2 : list (list cell)) :
  Forall2 same_hlcv d1 d2 ->
  calculate_indicators_body talib d1 = calculate_indicators_body talib d2.
Proof.
  intros H.
  destruct (same_hlcv_width d1 d2 H) as (Hw & H6).
  destruct H as [|r1 r2 d1 d2 Hr Hd]; [reflexivity|].
  assert (F : Forall2 same_hlcv (r1 :: d1) (r2 :: d2)) by now constructor.
  unfold calculate_indicators_body.
  rewrite !DataFrame_six; try discriminate;
    try (rewrite <- Hw); try (apply H6; discriminate).
  cbn [bind pd.getitem String.eqb Ascii.eqb Bool.eqb].
  rewrite !(same_hlcv_column _ _ _ F) by lia.
  reflexivity.
Qed.

Lemma np_array_text (column : list cell) (s : string) :
  In (JStr s) column -> exists e, np.array column = Raise e.
Proof.
  induction column as [|c r IH]; intros Hin; [destruct Hin|].
  destruct Hin as [->|Hin].
  - simpl. eexists. reflexivity.
  - simpl. destruct (np.to_float c); simpl; [|eexists; reflexivity].
    destruct (IH Hin) as (e & ->). simpl. eexists. reflexivity.
Qed.

Lemma body_width (talib : TALIB) (data : list (list cell)) (ind : indicators) :
  calculate_indicators_body talib data = Ok ind -> pd.width data = 6.
Proof.
  intros H. pose proof (body_nonempty _ _ _ H) as Hne.
  destruct (pd.width data =? 6) eqn:Ew; [now apply Nat.eqb_eq|].
  unfold calculate_indicators_body, pd.DataFrame in H.
  destruct data as [|r0 rest] eqn:Ed; [congruence|]. rewrite <- Ed in *.
  change (length ["timestamp"; "open"; "high"; "low"; "close"; "volume"]) with 6 in H.
  rewrite Ew in H. discriminate.
Qed.

Lemma body_numeric (talib : TALIB) (data : list (list cell)) (ind : indicators)
  (j : nat) (r : list cell) (s : string) :
  calculate_indicators_body talib data = Ok ind ->
  In j [2; 3; 4; 5] -> In r data -> nth j r JNull <> JStr s.
Proof.
  intros H Hj Hr Hs.
  pose proof (body_nonempty _ _ _ H) as Hne.
  pose proof (body_width _ _ _ H) as Hw.
  assert (Hin : In (JStr s) (pd.column data j)).
  { unfold pd.column. rewrite <- Hs. now apply (in_map (fun row => nth j row JNull)). }
  apply np_array_text in Hin. destruct Hin as (e & He).
  unfold calculate_indicators_body in H.
  rewrite DataFrame_six in H by assumption.
  cbn [bind pd.getitem String.eqb Ascii.eqb Bool.eqb] in H.
  do 4 bind_step H.
  simpl in Hj. destruct Hj as [<-|[<-|[<-|[<-|[]]]]]; congruence.
Qed.

(** C6. On zero bars the result is a failure whatever TA-Lib does; with the
    TA-Lib of the design, which returns empty arrays for empty input, the
    error is numpy's message for reading the last element of an array of
    size 0. *)
Theorem empty_input_fails :
  (forall talib, success (calculate_indicators talib []) = false) /\
  calculate_indicators ta_spec []
  = Failure "index -1 is out of bounds for axis 0 with size 0".
Proof.
  split; [|reflexivity].
  intros talib. unfold calculate_indicators.
  destruct (calculate_indicators_body talib []) as [ind|e] eqn:E; [|reflexivity].
  now apply body_nonempty in E.
Qed.

(** C7, as amended. A non-empty input fails when its longest row does not
    have exactly six fields, or when a high, low, close or volume field is a
    text that is not a number. *)
Theorem unloadable_input_fails (talib : TALIB) (data : list (list cell)) :
  pd.width data <> 6 \/
  (exists j r s, In j [2; 3; 4; 5] /\ In r data /\ nth j r JNull = JStr s) ->
  success (calculate_indicators talib data) = false.
Proof.
  intros H. unfold calculate_indicators.
  destruct (calculate_indicators_body talib data) as [ind|e] eqn:E; [|reflexivity].
  exfalso. destruct H as [Hw|(j & r & s & Hj & Hr & Hs)].
  - apply Hw. now apply (body_width talib data ind).
  - now apply (body_numeric talib data ind j r s E Hj Hr).
Qed.

Lemma unloadable_input_fails_witness :
  success (calculate_indicators ta_spec text_close_rows) = false.
Proof.
  apply unloadable_input_fails.
  right. exists 4, [one; one; one; one; JStr "abc"; one], "abc".
  repeat split; simpl; auto.
Defined.

(** C7 as stated fails: a row of five fields beside a row of six, a NaN or
    null field, and a text in the timestamp field are all accepted. *)
Lemma malformed_rows_accepted :
  (existsb malformed_row ragged_rows = true /\
   success (calculate_indicators ta_spec ragged_rows) = true) /\
  (existsb malformed_row nan_volume_rows = true /\
   success (calculate_indicators ta_spec nan_volume_rows) = true) /\
  (existsb malformed_row null_volume_rows = true /\
   success (calculate_indicators ta_spec null_volume_rows) = true) /\
  (existsb malformed_row text_timestamp_rows = true /\
   success (calculate_indicators ta_spec text_timestamp_rows) = true).
Proof. repeat split; vm_compute; reflexivity. Qed.

(** C10. Two inputs whose rows all have six fields and agree, row by row, on
    the high, low, close and volume fields give the same result, whatever
    their timestamp and open fields hold and whatever TA-Lib computes. *)
Theorem timestamp_open_irrelevant (talib : TALIB) (d1 d2 : list (list cell)) :
  Forall2 same_hlcv d1 d2 ->
  calculate_indicators talib d1 = calculate_indicators talib d2.
Proof.
  intros H. unfold calculate_indicators.
  now rewrite (body_reads_hlcv talib d1 d2 H).
Qed.

Lemma rows_same_hlcv (s1 s2 : list Bar) :
  Forall2 (fun a b => high a = high b /\ low a = low b /\ close a = close b
                      /\ volume a = volume b) s1 s2 ->
  Forall2 same_hlcv (rows s1) (rows s2).
Proof.
  induction 1 as [|a b s1 s2 (Hh & Hl & Hc & Hv) _ IH]; [constructor|].
  simpl. constructor; [|exact IH].
  unfold same_hlcv, row. simpl. now rewrite Hh, Hl, Hc, Hv.
Qed.

Lemma timestamp_open_irrelevant_witness :
  calculate_indicators ta_spec (rows (ramp_series 30))
  = calculate_indicators ta_spec (rows (map restamped (ramp_series 30))).
Proof.
  apply timestamp_open_irrelevant.
  apply rows_same_hlcv.
  induction (ramp_series 30) as [|b r IH]; simpl; constructor; auto.
Defined.

(* ================================================================== *)
(** ** Trend *)

(** The reported trend is [trend_of] of the reported averages and the
    reported price, whatever TA-Lib computes. *)
Lemma trend_reported (talib : TALIB) (data : list (list cell)) (ind : indicators) :
  calculate_indicators_body talib data = Ok ind ->
  trend ind = trend_of (MovingAverages.sma_20 (moving_averages ind))
                (MovingAverages.sma_50 (moving_averages ind))
                (current_price ind).
Proof.
  intros H. unfold calculate_indicators_body in H.
  repeat bind_step H.
  inversion H; subst; clear H.
  cbn [trend moving_averages current_price MovingAverages.sma_20
         MovingAverages.sma_50].
  match goal with
  | Et : (if _ then _ else _) = Ok ?t |- ?t = trend_of _ _ ?c =>
      cbn [bind] in Et; unfold trend_of;
      destruct (truthy _ && truthy _); [|now inversion Et];
      destruct (fgt (value _) (value _)); cbn [bind] in Et;
      [destruct (fgt c _); [now inversion Et|]|];
      (destruct (flt (value _) (value _)); cbn [bind] in Et;
       [destruct (flt c _)|]; now inversion Et)
  end.
Qed.

(** With both averages reported and non-zero the three labels are assigned
    as the design says. *)
Lemma trend_of_nonzero (a b : Q) (c : float) :
  ~ a == 0 -> ~ b == 0 ->
  trend_of (Some (Fin a)) (Some (Fin b)) c
  = if Qlt_bool b a && fgt c (Fin a) then Some "uptrend"
    else if Qlt_bool a b && flt c (Fin a) then Some "downtrend"
    else Some "sideways".
Proof.
  intros Ha Hb. unfold trend_of, truthy.
  destruct (Qeq_bool a 0) eqn:Ea; [now apply Qeq_bool_eq in Ea|].
  destruct (Qeq_bool b 0) eqn:Eb; [now apply Qeq_bool_eq in Eb|].
  reflexivity.
Qed.

(** A zero average is taken for a missing one. *)
Lemma trend_of_zero (a b : Q) (c : float) :
  a == 0 \/ b == 0 -> trend_of (Some (Fin a)) (Some (Fin b)) c = None.
Proof.
  intros H. unfold trend_of, truthy.
  destruct H as [H|H]; apply Qeq_eq_bool in H; rewrite H; simpl;
    [reflexivity|now rewrite andb_false_r].
Qed.

(** C1 at the failing input: on fifty bars whose fields are all zero both
    moving averages are reported, with value zero, the last close is zero,
    and the reported trend is the undefined marker, where the design's rule
    gives sideways. *)
Theorem zero_average_trend_undefined :
  exists ind,
    calculate_indicators ta_spec (rows (flat_series 50 0)) = Success ind /\
    MovingAverages.sma_20 (moving_averages ind) = Some (Fin 0) /\
    MovingAverages.sma_50 (moving_averages ind) = Some (Fin 0) /\
    current_price ind = Fin 0 /\
    trend ind = None.
Proof.
  eexists. split; [vm_compute; reflexivity|].
  repeat split.
Qed.

(* ================================================================== *)
(** ** Support and resistance *)

Lemma fold_fmax_spec (qs : list Q) (acc : Q) :
  exists m, fold_left fmax (map Fin qs) (Fin acc) = Fin m /\
            (m = acc \/ In m qs) /\ (acc <= m)%Q /\
            (forall q, In q qs -> (q <= m)%Q).
Proof.
  revert acc. induction qs as [|x r IH]; intros acc.
  - exists acc. simpl. repeat split; auto. apply Qle_refl. intros q [].
  - simpl. destruct (Qle_bool acc x) eqn:E.
    + apply Qle_bool_iff in E.
      destruct (IH x) as (m & Hm & Hin & Hle & Hall). exists m.
      split; [exact Hm|]. split; [right; destruct Hin; [left; congruence|now right]|].
      split; [now apply Qle_trans with x|].
      intros q [<-|Hq]; auto.
    + assert (L : (x <= acc)%Q).
      { apply Qlt_le_weak, Qnot_le_lt. intros C. apply Qle_bool_iff in C. congruence. }
      destruct (IH acc) as (m & Hm & Hin & Hle & Hall). exists m.
      split; [exact Hm|]. split; [destruct Hin; [now left|right; now right]|].
      split; [exact Hle|].
      intros q [<-|Hq]; auto. now apply Qle_trans with acc.
Qed.

Lemma fold_fmin_spec (qs : list Q) (acc : Q) :
  exists m, fold_left fmin (map Fin qs) (Fin acc) = Fin m /\
            (m = acc \/ In m qs) /\ (m <= acc)%Q /\
            (forall q, In q qs -> (m <= q)%Q).
Proof.
  revert acc. induction qs as [|x r IH]; intros acc.
  - exists acc. simpl. repeat split; auto. apply Qle_refl. intros q [].
  - simpl. destruct (Qle_bool acc x) eqn:E.
    + apply Qle_bool_iff in E.
      destruct (IH acc) as (m & Hm & Hin & Hle & Hall). exists m.
      split; [exact Hm|]. split; [destruct Hin; [now left|right; now right]|].
      split; [exact Hle|].
      intros q [<-|Hq]; auto. now apply Qle_trans with acc.
    + assert (L : (x <= acc)%Q).
      { apply Qlt_le_weak, Qnot_le_lt. intros C. apply Qle_bool_iff in C. congruence. }
      destruct (IH x) as (m & Hm & Hin & Hle & Hall). exists m.
      split; [exact Hm|]. split; [right; destruct Hin; [left; congruence|now right]|].
      split; [now apply Qle_trans with x|].
      intros q [<-|Hq]; auto.
Qed.

Lemma highest_spec (qs : list Q) :
  qs <> [] ->
  exists m, ta.highest (map Fin qs) = Fin m /\ In m qs /\
            (forall q, In q qs -> (q <= m)%Q).
Proof.
  destruct qs as [|x r]; [congruence|]. intros _.
  destruct (fold_fmax_spec r x) as (m & Hm & Hin & Hle & Hall).
  exists m. split; [exact Hm|]. split.
  - destruct Hin; [left; congruence|now right].
  - intros q [<-|Hq]; auto.
Qed.

Lemma lowest_spec (qs : list Q) :
  qs <> [] ->
  exists m, ta.lowest (map Fin qs) = Fin m /\ In m qs /\
            (forall q, In q qs -> (m <= q)%Q).
Proof.
  destruct qs as [|x r]; [congruence|]. intros _.
  destruct (fold_fmin_spec r x) as (m & Hm & Hin & Hle & Hall).
  exists m. split; [exact Hm|]. split.
  - destruct Hin; [left; congruence|now right].
  - intros q [<-|Hq]; auto.
Qed.




(* ================================================================== *)
(** ** Arithmetic on doubles *)

(** Values in lowest terms are handled through [Qred_correct] only. *)
#[local] Opaque Qred.

Lemma fadd_nonneg (a b : float) :
  undefined_or (Qle 0) a -> undefined_or (Qle 0) b -> undefined_or (Qle 0) (fadd a b).
Proof.
  destruct a as [|p], b as [|q]; cbn [undefined_or fadd lift2 num]; trivial.
  intros Hp Hq.
  rewrite Qred_correct. change 0%Q with (0 + 0)%Q. now apply Qplus_le_compat.
Qed.

Lemma fmul_nonneg (a b : float) :
  undefined_or (Qle 0) a -> undefined_or (Qle 0) b -> undefined_or (Qle 0) (fmul a b).
Proof.
  destruct a as [|p], b as [|q]; cbn [undefined_or fmul lift2 num]; trivial.
  intros Hp Hq.
  rewrite Qred_correct. now apply Qmult_le_0_compat.
Qed.

Lemma fdiv_nonneg (a b : float) :
  undefined_or (Qle 0) a -> undefined_or (Qle 0) b -> undefined_or (Qle 0) (fdiv a b).
Proof.
  destruct a as [|p], b as [|q]; cbn [undefined_or fdiv]; trivial.
  intros Hp Hq.
  destruct (Qeq_bool q 0); cbn [undefined_or num]; [trivial|].
  rewrite Qred_correct. unfold Qdiv.
  apply Qmult_le_0_compat; [exact Hp|now apply Qinv_le_0_compat].
Qed.

Lemma Qnat_nonneg (n : nat) : (0 <= Qnat n)%Q.
Proof.
  unfold Qnat, Qle. simpl. lia.
Qed.

Lemma Qnat_pred_nonneg (n : nat) : (0 <= Qnat (S n) - 1)%Q.
Proof.
  pose proof (Qnat_nonneg n) as H. unfold Qnat in *.
  rewrite Nat2Z.inj_succ. unfold Z.succ. rewrite inject_Z_plus.
  change (inject_Z 1) with 1%Q. lra.
Qed.

Lemma Qsqrt_nonneg (q : Q) : (0 <= Qsqrt q)%Q.
Proof.
  unfold Qsqrt, Qle. simpl. rewrite Z.mul_1_r. apply Z.sqrt_nonneg.
Qed.

Lemma fsqrt_nonneg (a : float) : undefined_or (Qle 0) (fsqrt a).
Proof.
  destruct a as [|q]; cbn [undefined_or fsqrt num]; trivial.
  rewrite Qred_correct. apply Qsqrt_nonneg.
Qed.

Lemma Forall_firstn {A : Type} (P : A -> Prop) (n : nat) (l : list A) :
  Forall P l -> Forall P (firstn n l).
Proof.
  intros H. rewrite <- (firstn_skipn n l) in H. now apply Forall_app in H.
Qed.

Lemma Forall_skipn {A : Type} (P : A -> Prop) (n : nat) (l : list A) :
  Forall P l -> Forall P (skipn n l).
Proof.
  intros H. rewrite <- (firstn_skipn n l) in H. now apply Forall_app in H.
Qed.

Lemma Forall_repeat {A : Type} (P : A -> Prop) (x : A) (n : nat) :
  P x -> Forall P (repeat x n).
Proof. intros H. induction n; simpl; constructor; auto. Qed.

Lemma fsum_nonneg (xs : list float) :
  Forall (undefined_or (Qle 0)) xs -> undefined_or (Qle 0) (ta.fsum xs).
Proof.
  unfold ta.fsum.
  assert (G : forall acc, undefined_or (Qle 0) acc ->
                          Forall (undefined_or (Qle 0)) xs ->
                          undefined_or (Qle 0) (fold_left fadd xs acc)).
  { induction xs as [|x r IH]; intros acc Ha Hx; simpl; [exact Ha|].
    inversion Hx; subst. apply IH; [now apply fadd_nonneg|assumption]. }
  apply G. simpl. apply Qle_refl.
Qed.

Lemma mean_nonneg (xs : list float) :
  Forall (undefined_or (Qle 0)) xs -> undefined_or (Qle 0) (ta.mean xs).
Proof.
  intros H. unfold ta.mean. apply fdiv_nonneg; [now apply fsum_nonneg|].
  simpl. apply Qnat_nonneg.
Qed.

(** ** Smoothed series *)

Lemma run_Forall (P : float -> Prop) (step : float -> float -> float)
  (prev : float) (xs : list float) :
  (forall p x, P p -> P x -> P (step p x)) ->
  P prev -> Forall P xs -> Forall P (ta.run step prev xs).
Proof.
  intros Hs. revert prev. induction xs as [|x r IH]; intros prev Hp Hx; simpl.
  - now constructor.
  - inversion Hx; subst. constructor; [exact Hp|]. apply IH; auto.
Qed.

Lemma seeded_Forall (P : float -> Prop) (step : float -> float -> float)
  (n : nat) (xs : list float) :
  P NaN -> (forall l, Forall P l -> P (ta.mean l)) ->
  (forall p x, P p -> P x -> P (step p x)) ->
  Forall P xs -> Forall P (ta.seeded step n xs).
Proof.
  intros Hn Hm Hs Hx. unfold ta.seeded.
  destruct (length xs <? n); [now apply Forall_repeat|].
  apply Forall_app. split; [now apply Forall_repeat|].
  apply run_Forall; [exact Hs| |now apply Forall_skipn].
  apply Hm. now apply Forall_firstn.
Qed.

Lemma wilder_step_nonneg (n : nat) (prev x : float) :
  undefined_or (Qle 0) prev -> undefined_or (Qle 0) x ->
  undefined_or (Qle 0) (ta.wilder_step n prev x).
Proof.
  intros Hp Hx. unfold ta.wilder_step. destruct n as [|n].
  - unfold fdiv. destruct (fadd _ x); simpl; trivial.
  - apply fdiv_nonneg; [|apply Qnat_nonneg].
    apply fadd_nonneg; [|exact Hx].
    apply fmul_nonneg; [exact Hp|]. apply Qnat_pred_nonneg.
Qed.

Lemma wilder_nonneg (n : nat) (xs : list float) :
  Forall (undefined_or (Qle 0)) xs ->
  Forall (undefined_or (Qle 0)) (ta.wilder n xs).
Proof.
  apply seeded_Forall.
  - exact I.
  - apply mean_nonneg.
  - apply wilder_step_nonneg.
Qed.

Lemma pairwise_Forall {A B : Type} (f : A -> A -> B) (P : B -> Prop) (xs : list A) :
  (forall a b, P (f a b)) -> Forall P (pairwise f xs).
Proof.
  intros H. induction xs as [|x [|y r] IH]; try constructor.
  - apply H.
  - exact IH.
Qed.

Lemma Qlt_bool_true (a b : Q) : Qlt_bool a b = true -> (a < b)%Q.
Proof.
  unfold Qlt_bool. intros H. apply Qnot_le_lt. intros C.
  apply Qle_bool_iff in C. rewrite C in H. discriminate.
Qed.

Lemma gain_nonneg (prev cur : float) : undefined_or (Qle 0) (ta.gain prev cur).
Proof.
  unfold ta.gain. destruct (fsub cur prev) as [|dl]; simpl; trivial.
  destruct (Qlt_bool 0 dl) eqn:E; simpl; [|apply Qle_refl].
  now apply Qlt_le_weak, Qlt_bool_true.
Qed.

Lemma loss_nonneg (prev cur : float) : undefined_or (Qle 0) (ta.loss prev cur).
Proof.
  unfold ta.loss. destruct (fsub cur prev) as [|dl]; simpl; trivial.
  destruct (Qlt_bool dl 0) eqn:E; simpl; [|apply Qle_refl].
  apply Qlt_bool_true in E. lra.
Qed.

(** ** RSI *)

Lemma rsi_value_range (g l : float) :
  undefined_or (Qle 0) g -> undefined_or (Qle 0) l ->
  undefined_or (fun q => 0 <= q <= 100)%Q (ta.rsi_value g l).
Proof.
  destruct g as [|g], l as [|l]; cbn [undefined_or ta.rsi_value]; trivial.
  intros Hg Hl.
  destruct (Qeq_bool l 0) eqn:E; cbn [undefined_or num]; [lra|].
  apply Qeq_bool_neq in E.
  rewrite Qred_correct.
  assert (Hl' : (0 < l)%Q) by (destruct (Qlt_le_dec 0 l); [assumption|exfalso; apply E; lra]).
  assert (Hr : (0 <= g / l)%Q).
  { unfold Qdiv. apply Qmult_le_0_compat; [exact Hg|].
    apply Qinv_le_0_compat. lra. }
  assert (Ht : (0 < 1 + g / l)%Q) by lra.
  assert (H1 : (100 / (1 + g / l) <= 100)%Q) by (apply Qle_shift_div_r; [exact Ht|lra]).
  assert (H2 : (0 <= 100 / (1 + g / l))%Q) by (apply Qle_shift_div_l; [exact Ht|lra]).
  lra.
Qed.

Lemma rsi_series_range (n : nat) (close : list float) :
  Forall (undefined_or (fun q => 0 <= q <= 100)%Q) (ta.rsi_series n close).
Proof.
  unfold ta.rsi_series. destruct close as [|c r]; constructor; [exact I|].
  apply (Forall_map2 _ (undefined_or (Qle 0)) (undefined_or (Qle 0))).
  - apply rsi_value_range.
  - apply wilder_nonneg, pairwise_Forall, gain_nonneg.
  - apply wilder_nonneg, pairwise_Forall, loss_nonneg.
Qed.

Lemma latest_Some (series : list float) (v : float) :
  latest series = Some v -> last series NaN = v /\ v <> NaN.
Proof.
  unfold latest. destruct (last series NaN) as [|q]; simpl; intros H;
    inversion H; subst. split; [reflexivity|discriminate].
Qed.


(** C5. Whatever the input, when the call succeeds and reports an RSI, the
    reported value lies between 0 and 100. *)
Theorem rsi_bounded (data : list (list cell)) (ind : indicators) (q : Q) :
  calculate_indicators ta_spec data = Success ind ->
  rsi ind = Some (Fin q) ->
  (0 <= q <= 100)%Q.
Proof.
  intros H Hr.
  destruct (spec_success_inv data ind H)
    as (close & high & low & _ & _ & _ & _ & _ & _ & _ & ->).
  cbn [rsi snapshot] in Hr.
  apply latest_Some in Hr. destruct Hr as (Hr & _).
  pose proof (Forall_last _ _ NaN (rsi_series_range 14 close) I) as G.
  rewrite Hr in G. exact G.
Qed.

Lemma rsi_bounded_witness :
  exists ind q,
    calculate_indicators ta_spec (rows (wave_series 30)) = Success ind /\
    rsi ind = Some (Fin q) /\ (0 <= q <= 100)%Q.
Proof.
  pose (ind := snapshot (floats close (wave_series 30))
                 (floats high (wave_series 30)) (floats low (wave_series 30))).
  assert (H : calculate_indicators ta_spec (rows (wave_series 30)) = Success ind)
    by (apply calculate_bars; discriminate).
  exists ind. eexists. split; [exact H|].
  split; [vm_compute; reflexivity|].
  eapply rsi_bounded; [exact H|vm_compute; reflexivity].
Defined.

(** ** Bollinger Bands *)

Lemma bands_order (n : nat) (up dn : Q) (p : list float) (u m l : Q) :
  (0 <= up)%Q -> (0 <= dn)%Q ->
  ta.bands n up dn p = (Fin u, Fin m, Fin l) -> (l <= m /\ m <= u)%Q.
Proof.
  intros Hup Hdn. unfold ta.bands.
  destruct (length p <? n); [discriminate|].
  set (w := lastn n p). set (mid := ta.mean w).
  pose proof (fsqrt_nonneg
                (ta.mean (map (fun x => fmul (fsub x mid) (fsub x mid)) w))) as Hs.
  destruct (fsqrt _) as [|sd]; destruct mid as [|mq];
    cbn [fadd fsub fmul lift2 num]; try discriminate.
  unfold num. intros H. injection H as Eu Em El. subst u m l.
  cbn [undefined_or] in Hs.
  rewrite !Qred_correct.
  assert ((0 <= up * sd)%Q) by now apply Qmult_le_0_compat.
  assert ((0 <= dn * sd)%Q) by now apply Qmult_le_0_compat.
  split; lra.
Qed.

Lemma last_bbands (n : nat) (up dn : Q) (close : list float) :
  close <> [] ->
  let b := ta.bbands_series n up dn close in
  (last (fst (fst b)) NaN, last (snd (fst b)) NaN, last (snd b) NaN)
  = ta.bands n up dn close.
Proof.
  intros Hne. unfold ta.bbands_series. cbn [fst snd].
  set (r := rolling (ta.bands n up dn) close).
  pose proof (last_map (fun t : float * float * float => fst (fst t)) r (NaN, NaN, NaN)) as E1.
  pose proof (last_map (fun t : float * float * float => snd (fst t)) r (NaN, NaN, NaN)) as E2.
  pose proof (last_map (fun t : float * float * float => snd t) r (NaN, NaN, NaN)) as E3.
  cbn [fst snd] in E1, E2, E3. rewrite E1, E2, E3.
  unfold r. rewrite last_rolling by assumption.
  now destruct (ta.bands n up dn close) as [[? ?] ?].
Qed.

(** C9. Whatever the input, when the call succeeds and reports all three
    Bollinger values, lower <= middle <= upper. *)
Theorem bollinger_ordered (data : list (list cell)) (ind : indicators) (u m l : Q) :
  calculate_indicators ta_spec data = Success ind ->
  Bollinger.upper (bollinger_bands ind) = Some (Fin u) ->
  Bollinger.middle (bollinger_bands ind) = Some (Fin m) ->
  Bollinger.lower (bollinger_bands ind) = Some (Fin l) ->
  (l <= m /\ m <= u)%Q.
Proof.
  intros H Hu Hm Hl.
  destruct (spec_success_inv data ind H)
    as (close & high & low & _ & _ & _ & Lc & _ & _ & Hne & ->).
  cbn [bollinger_bands snapshot Bollinger.upper Bollinger.middle Bollinger.lower]
    in Hu, Hm, Hl.
  apply latest_Some in Hu, Hm, Hl.
  destruct Hu as (Hu & _), Hm as (Hm & _), Hl as (Hl & _).
  assert (Nc : close <> []).
  { apply length_nonempty. rewrite Lc. now apply length_nonempty. }
  pose proof (last_bbands 20 2 2 close Nc) as Hb. cbv zeta in Hb.
  rewrite Hu, Hm, Hl in Hb. symmetry in Hb.
  apply (bands_order 20 2 2 close); [lra|lra|exact Hb].
Qed.

Lemma bollinger_ordered_witness :
  exists ind u m l,
    calculate_indicators ta_spec (rows (wave_series 30)) = Success ind /\
    Bollinger.upper (bollinger_bands ind) = Some (Fin u) /\
    Bollinger.middle (bollinger_bands ind) = Some (Fin m) /\
    Bollinger.lower (bollinger_bands ind) = Some (Fin l) /\
    (l <= m /\ m <= u)%Q.
Proof.
  pose (ind := snapshot (floats close (wave_series 30))
                 (floats high (wave_series 30)) (floats low (wave_series 30))).
  assert (H : calculate_indicators ta_spec (rows (wave_series 30)) = Success ind)
    by (apply calculate_bars; discriminate).
  exists ind. eexists. eexists. eexists. split; [exact H|].
  split; [vm_compute; reflexivity|].
  split; [vm_compute; reflexivity|].
  split; [vm_compute; reflexivity|].
  eapply bollinger_ordered;
    [exact H|vm_compute; reflexivity|vm_compute; reflexivity|vm_compute; reflexivity].
Defined.

(* ================================================================== *)
(** ** Undefined values *)


























(* ================================================================== *)
(** ** Stochastic oscillator on a flat range *)





Lemma current_not_nan (series : list float) (o : option float) :
  current series = Ok o -> o <> Some NaN.
Proof.
  unfold current. destruct (np.last series) as [v|e]; cbn [bind]; [|discriminate].
  intros H. inversion H; subst. now destruct v.
Qed.





(* ================================================================== *)
(** ** What the engine loads and reports, for any TA-Lib *)

Lemma np_array_spec (column : list cell) :
  np.array column
  = match first_text column with
    | Some s => Raise (ValueError ("could not convert string to float: '" ++ s ++ "'"))
    | None => Ok (map cell_value column)
    end.
Proof.
  induction column as [|c r IH]; [reflexivity|].
  cbn [np.array]. rewrite IH.
  destruct c; cbn [np.to_float bind first_text map cell_value];
    try reflexivity; now destruct (first_text r).
Qed.

Lemma success_body (talib : TALIB) (data : list (list cell)) (ind : indicators) :
  calculate_indicators talib data = Success ind ->
  calculate_indicators_body talib data = Ok ind.
Proof.
  unfold calculate_indicators.
  destruct (calculate_indicators_body talib data); intros H; now inversion H.
Qed.

(** On success the four converted columns hold no text, and the levels and
    the price are read from the loaded columns. *)
Lemma body_reads (talib : TALIB) (data : list (list cell)) (ind : indicators) :
  calculate_indicators_body talib data = Ok ind ->
  loadable data /\
  np.max (lastn 20 (map cell_value (pd.column data 2))) = Ok (resistance ind) /\
  np.min (lastn 20 (map cell_value (pd.column data 3))) = Ok (support ind) /\
  np.last (map cell_value (pd.column data 4)) = Ok (current_price ind).
Proof.
  intros H.
  pose proof (body_nonempty _ _ _ H) as Hne.
  pose proof (body_width _ _ _ H) as Hw.
  unfold calculate_indicators_body in H.
  rewrite DataFrame_six in H by assumption.
  cbn [bind pd.getitem String.eqb Ascii.eqb Bool.eqb] in H.
  rewrite !np_array_spec in H.
  destruct (first_text (pd.column data 4)) eqn:T4; [discriminate|].
  destruct (first_text (pd.column data 2)) eqn:T2; [discriminate|].
  destruct (first_text (pd.column data 3)) eqn:T3; [discriminate|].
  destruct (first_text (pd.column data 5)) eqn:T5; [discriminate|].
  cbn [bind] in H.
  repeat bind_step H.
  inversion H; subst; clear H. cbn [resistance support current_price].
  split; [|repeat split; assumption].
  split; [exact Hne|]. split; [exact Hw|].
  intros j Hj. simpl in Hj.
  destruct Hj as [<-|[<-|[<-|[<-|[]]]]]; assumption.
Qed.

(** X1. Whenever the call succeeds the reported price is the close field of
    the last row as it was loaded: the number itself, NaN for null. *)
Theorem current_price_is_last_close (talib : TALIB) (data : list (list cell))
  (ind : indicators) :
  calculate_indicators talib data = Success ind ->
  current_price ind = cell_value (nth 4 (last data []) JNull).
Proof.
  intros H. apply success_body in H.
  destruct (body_reads _ _ _ H) as ((Hne & _) & _ & _ & Hp).
  rewrite np_last_Ok in Hp.
  - inversion Hp as [E].
    pose proof (last_map cell_value (pd.column data 4) JNull) as L1.
    cbn [cell_value] in L1. rewrite L1. unfold pd.column.
    pose proof (last_map (fun row : list cell => nth 4 row JNull) data []) as L2.
    cbn [nth] in L2. now rewrite L2.
  - unfold pd.column. destruct data; [congruence|discriminate].
Qed.

Lemma current_price_is_last_close_witness :
  exists ind,
    calculate_indicators ta_spec (rows (wave_series 30)) = Success ind /\
    current_price ind = Fin 11.
Proof.
  assert (Hne : wave_series 30 <> []) by discriminate.
  pose proof (calculate_bars (wave_series 30) Hne) as Hc.
  eexists. split; [exact Hc|].
  rewrite (current_price_is_last_close ta_spec _ _ Hc). reflexivity.
Defined.

(** X2. Whenever the call succeeds, with any TA-Lib, each of the fourteen
    optional values of the result is a number or [None], never NaN. *)
Theorem reported_never_nan (talib : TALIB) (data : list (list cell))
  (ind : indicators) :
  calculate_indicators talib data = Success ind ->
  Forall (fun o => o <> Some NaN) (reported ind).
Proof.
  intros H. apply success_body in H.
  unfold calculate_indicators_body in H.
  repeat bind_step H.
  inversion H; subst; clear H. unfold reported.
  cbn [rsi macd bollinger_bands atr stochastic moving_averages
         Macd.macd Macd.signal Macd.histogram
         Bollinger.upper Bollinger.middle Bollinger.lower
         Stochastic.k Stochastic.d
         MovingAverages.sma_20 MovingAverages.sma_50
         MovingAverages.ema_20 MovingAverages.ema_50].
  repeat constructor; eapply current_not_nan; eassumption.
Qed.

Lemma reported_never_nan_witness :
  exists ind,
    calculate_indicators ta_spec null_high_rows = Success ind /\
    Forall (fun o => o <> Some NaN) (reported ind).
Proof.
  eexists. split; [vm_compute; reflexivity|].
  eapply (reported_never_nan ta_spec null_high_rows). vm_compute. reflexivity.
Defined.

(** X3. Whenever the call succeeds, with any TA-Lib: the trend is [None]
    when a reported average is [None] or zero; when both are non-zero
    numbers it is uptrend if SMA-20 > SMA-50 and price > SMA-20, downtrend if
    SMA-20 < SMA-50 and price < SMA-20, and sideways otherwise. *)
Theorem trend_rule (talib : TALIB) (data : list (list cell)) (ind : indicators) :
  calculate_indicators talib data = Success ind ->
  (MovingAverages.sma_20 (moving_averages ind) = None \/
   MovingAverages.sma_50 (moving_averages ind) = None -> trend ind = None) /\
  (forall a b,
     MovingAverages.sma_20 (moving_averages ind) = Some (Fin a) ->
     MovingAverages.sma_50 (moving_averages ind) = Some (Fin b) ->
     ((a == 0)%Q \/ (b == 0)%Q -> trend ind = None) /\
     (~ (a == 0)%Q -> ~ (b == 0)%Q ->
      trend ind
      = if Qlt_bool b a && fgt (current_price ind) (Fin a) then Some "uptrend"
        else if Qlt_bool a b && flt (current_price ind) (Fin a) then Some "downtrend"
        else Some "sideways")).
Proof.
  intros H. apply success_body in H. rewrite (trend_reported _ _ _ H).
  split.
  - intros [-> | ->]; unfold trend_of; cbn [truthy andb]; [reflexivity|].
    now rewrite andb_false_r.
  - intros a b -> ->. split.
    + apply trend_of_zero.
    + apply trend_of_nonzero.
Qed.

Lemma trend_rule_witness :
  exists ind,
    calculate_indicators ta_spec (rows (ramp_series 60)) = Success ind /\
    trend ind = Some "uptrend".
Proof.
  assert (Hne : ramp_series 60 <> []) by discriminate.
  pose proof (calculate_bars (ramp_series 60) Hne) as Hc.
  eexists. split; [exact Hc|].
  destruct (trend_rule ta_spec _ _ Hc) as (_ & R).
  destruct (R (101 # 2) (71 # 2)) as (_ & N);
    [vm_compute; reflexivity|vm_compute; reflexivity|].
  rewrite N; [vm_compute; reflexivity| |]; intros C; vm_compute in C; discriminate.
Defined.

(** ** Levels *)

Lemma fold_fmax_nan (xs : list float) (acc : float) :
  acc = NaN \/ In NaN xs -> fold_left fmax xs acc = NaN.
Proof.
  revert acc. induction xs as [|x r IH]; intros acc H; simpl.
  - destruct H as [H|[]]. exact H.
  - apply IH. destruct H as [->|[->|H]].
    + left. reflexivity.
    + left. now destruct acc.
    + now right.
Qed.

Lemma fold_fmin_nan (xs : list float) (acc : float) :
  acc = NaN \/ In NaN xs -> fold_left fmin xs acc = NaN.
Proof.
  revert acc. induction xs as [|x r IH]; intros acc H; simpl.
  - destruct H as [H|[]]. exact H.
  - apply IH. destruct H as [->|[->|H]].
    + left. reflexivity.
    + left. now destruct acc.
    + now right.
Qed.

Lemma np_max_nan (a : list float) (m : float) :
  np.max a = Ok m -> In NaN a -> m = NaN.
Proof.
  destruct a as [|x r]; [discriminate|]. cbn [np.max]. intros H Hin.
  inversion H. apply fold_fmax_nan. destruct Hin; [now left|now right].
Qed.

Lemma np_min_nan (a : list float) (m : float) :
  np.min a = Ok m -> In NaN a -> m = NaN.
Proof.
  destruct a as [|x r]; [discriminate|]. cbn [np.min]. intros H Hin.
  inversion H. apply fold_fmin_nan. destruct Hin; [now left|now right].
Qed.

Lemma loads_nan_value (c : cell) : loads_nan c = true -> cell_value c = NaN.
Proof. destruct c as [|[|q]|s]; simpl; congruence. Qed.

Lemma in_window_column (data : list (list cell)) (row : list cell) (j : nat) :
  In row (lastn 20 data) ->
  In (cell_value (nth j row JNull)) (lastn 20 (map cell_value (pd.column data j))).
Proof.
  intros H. unfold pd.column. rewrite map_map, lastn_map.
  now apply (in_map (fun r => cell_value (nth j r JNull))).
Qed.

(** X5. A null or NaN high among the last twenty rows does not make the call
    fail and is not replaced by [None]: whenever the call succeeds the
    reported resistance is NaN; likewise a null or NaN low makes the reported
    support NaN. *)
Theorem nan_level_reported (talib : TALIB) (data : list (list cell))
  (ind : indicators) (row : list cell) :
  calculate_indicators talib data = Success ind ->
  In row (lastn 20 data) ->
  (loads_nan (nth 2 row JNull) = true -> resistance ind = NaN) /\
  (loads_nan (nth 3 row JNull) = true -> support ind = NaN).
Proof.
  intros H Hrow. apply success_body in H.
  destruct (body_reads _ _ _ H) as (_ & Hmax & Hmin & _).
  split; intros Hn.
  - apply (np_max_nan _ _ Hmax).
    rewrite <- (loads_nan_value _ Hn). now apply in_window_column.
  - apply (np_min_nan _ _ Hmin).
    rewrite <- (loads_nan_value _ Hn). now apply in_window_column.
Qed.

Lemma nan_level_reported_witness :
  exists ind,
    calculate_indicators ta_spec null_high_rows = Success ind /\
    resistance ind = NaN.
Proof.
  eexists. split; [vm_compute; reflexivity|].
  eapply (nan_level_reported ta_spec null_high_rows _ [one; one; JNull; one; one; one]).
  - vm_compute. reflexivity.
  - left. reflexivity.
  - reflexivity.
Defined.

(** The levels of a series of well-formed bars, for any TA-Lib. *)
Lemma levels_bars (talib : TALIB) (series : list Bar) (ind : indicators) :
  calculate_indicators talib (rows series) = Success ind ->
  exists r s,
    resistance ind = Fin r /\ support ind = Fin s /\
    (forall b, In b (lastn 20 series) -> (high b <= r)%Q) /\
    (forall b, In b (lastn 20 series) -> (s <= low b)%Q).
Proof.
  intros H. apply success_body in H.
  destruct (body_reads _ _ _ H) as ((Hne & _) & Hmax & Hmin & _).
  assert (Hs : series <> []) by (destruct series; [now elim Hne|discriminate]).
  assert (Hw : lastn 20 series <> []).
  { apply length_nonempty. rewrite lastn_length.
    apply length_nonempty in Hs. lia. }
  assert (Ch : map cell_value (pd.column (rows series) 2) = map Fin (map high series)).
  { unfold pd.column, rows. rewrite !map_map. now apply map_ext. }
  assert (Cl : map cell_value (pd.column (rows series) 3) = map Fin (map low series)).
  { unfold pd.column, rows. rewrite !map_map. now apply map_ext. }
  rewrite Ch, !lastn_map in Hmax. rewrite Cl, !lastn_map in Hmin.
  assert (Hh : map high (lastn 20 series) <> [])
    by (destruct (lastn 20 series); [congruence|discriminate]).
  assert (Hl : map low (lastn 20 series) <> [])
    by (destruct (lastn 20 series); [congruence|discriminate]).
  destruct (highest_spec _ Hh) as (r & Hr & _ & Hrall).
  destruct (lowest_spec _ Hl) as (s & Hsp & _ & Hsall).
  rewrite np_max_Ok, Hr in Hmax
    by (destruct (map high (lastn 20 series)); [congruence|discriminate]).
  rewrite np_min_Ok, Hsp in Hmin
    by (destruct (map low (lastn 20 series)); [congruence|discriminate]).
  exists r, s. inversion Hmax. inversion Hmin.
  repeat split.
  - intros b Hb. apply Hrall. now apply in_map.
  - intros b Hb. apply Hsall. now apply in_map.
Qed.

(** X4. On a series of well-formed bars, whenever the call succeeds and some
    bar among the last twenty has its low at or below its high, the reported
    support is at or below the reported resistance. *)
Theorem support_le_resistance (talib : TALIB) (series : list Bar)
  (ind : indicators) (b : Bar) :
  calculate_indicators talib (rows series) = Success ind ->
  In b (lastn 20 series) -> (low b <= high b)%Q ->
  exists r s,
    resistance ind = Fin r /\ support ind = Fin s /\ (s <= r)%Q.
Proof.
  intros H Hb Hlh.
  destruct (levels_bars _ _ _ H) as (r & s & Hr & Hs & Hrall & Hsall).
  exists r, s. repeat split; try assumption.
  apply Qle_trans with (low b); [now apply Hsall|].
  apply Qle_trans with (high b); [exact Hlh|now apply Hrall].
Qed.

Lemma support_le_resistance_witness :
  exists ind r s,
    calculate_indicators ta_spec (rows (wave_series 30)) = Success ind /\
    resistance ind = Fin r /\ support ind = Fin s /\ (s <= r)%Q.
Proof.
  assert (Hne : wave_series 30 <> []) by discriminate.
  pose proof (calculate_bars (wave_series 30) Hne) as Hc.
  destruct (support_le_resistance ta_spec (wave_series 30) _ (wave_bar 29) Hc)
    as (r & s & G).
  - vm_compute. repeat (first [left; reflexivity | right]).
  - vm_compute. discriminate.
  - eexists. exists r, s. split; [exact Hc|exact G].
Defined.

(** ** Loading and its errors *)

Lemma same_hlc_width (d1 d2 : list (list cell)) :
  Forall2 same_hlc d1 d2 ->
  (d1 <> [] -> pd.width d1 = 6) /\ (d2 <> [] -> pd.width d2 = 6).
Proof.
  intros H. induction H as [|r1 r2 d1 d2 (H1 & H2 & _) Hd (IH1 & IH2)].
  - split; congruence.
  - simpl. rewrite H1, H2. split; intros _.
    + destruct d1 as [|r d1]; [reflexivity|]. now rewrite IH1.
    + destruct d2 as [|r d2]; [reflexivity|]. now rewrite IH2.
Qed.

Lemma same_hlc_column (d1 d2 : list (list cell)) (j : nat) :
  Forall2 same_hlc d1 d2 -> In j [2; 3; 4] -> pd.column d1 j = pd.column d2 j.
Proof.
  intros H Hj.
  induction H as [|r1 r2 d1 d2 (_ & _ & E2 & E3 & E4 & _) _ IH]; [reflexivity|].
  unfold pd.column in *. simpl map. rewrite IH. f_equal.
  simpl in Hj. destruct Hj as [<-|[<-|[<-|[]]]]; assumption.
Qed.

Lemma same_hlc_volume (d1 d2 : list (list cell)) :
  Forall2 same_hlc d1 d2 ->
  first_text (pd.column d1 5) = None /\ first_text (pd.column d2 5) = None.
Proof.
  intros H.
  induction H as [|r1 r2 d1 d2 (_ & _ & _ & _ & _ & T1 & T2) _ (IH1 & IH2)];
    [now split|].
  unfold pd.column in *. simpl map. split.
  - destruct (nth 5 r1 JNull); try discriminate; exact IH1.
  - destruct (nth 5 r2 JNull); try discriminate; exact IH2.
Qed.

(** X6. The volume column is converted but never used: two inputs whose
    numbers are all within the double range, whose rows all have six fields
    and agree, row by row, on high, low and close, and whose volume fields
    are numbers or null, give the same result, whatever the volumes,
    timestamps and opens are and whatever TA-Lib computes. *)
Theorem volume_irrelevant (talib : TALIB) (d1 d2 : list (list cell)) :
  representable d1 -> representable d2 ->
  Forall2 same_hlc d1 d2 ->
  calculate_indicators talib d1 = calculate_indicators talib d2.
Proof.
  intros _ _ H.
  destruct (same_hlc_width d1 d2 H) as (W1 & W2).
  destruct (same_hlc_volume d1 d2 H) as (V1 & V2).
  pose proof (same_hlc_column d1 d2 2 H) as C2.
  pose proof (same_hlc_column d1 d2 3 H) as C3.
  pose proof (same_hlc_column d1 d2 4 H) as C4.
  destruct H as [|r1 r2 d1 d2 Hr Hd]; [reflexivity|].
  unfold calculate_indicators, calculate_indicators_body.
  rewrite !DataFrame_six; try discriminate;
    try (apply W1; discriminate); try (apply W2; discriminate).
  cbn [bind pd.getitem String.eqb Ascii.eqb Bool.eqb].
  rewrite C2, C3, C4 by (simpl; auto).
  rewrite !np_array_spec, V1, V2.
  destruct (first_text (pd.column (r2 :: d2) 4)); [reflexivity|].
  destruct (first_text (pd.column (r2 :: d2) 2)); [reflexivity|].
  destruct (first_text (pd.column (r2 :: d2) 3)); reflexivity.
Qed.

Lemma rows_same_hlc (s1 s2 : list Bar) :
  Forall2 (fun a b => high a = high b /\ low a = low b /\ close a = close b) s1 s2 ->
  Forall2 same_hlc (rows s1) (rows s2).
Proof.
  induction 1 as [|a b s1 s2 (Hh & Hl & Hc) _ IH]; [constructor|].
  simpl. constructor; [|exact IH].
  unfold same_hlc, row. simpl. now rewrite Hh, Hl, Hc.
Qed.

Lemma volume_irrelevant_witness :
  calculate_indicators ta_spec (rows (wave_series 30))
  = calculate_indicators ta_spec (rows (map revolumed (wave_series 30))).
Proof.
  apply volume_irrelevant.
  - vm_compute. reflexivity.
  - vm_compute. reflexivity.
  - apply rows_same_hlc.
    induction (wave_series 30) as [|b r IH]; simpl; constructor; auto.
Defined.

(** X7. What a success needs and what suffices for one: with any TA-Lib a
    success means the input has at least one row, its longest row has six
    fields and the high, low, close and volume columns hold no text; with the
    TA-Lib of the design every such input whose numbers are all within the
    double range succeeds. *)
Theorem success_criterion (data : list (list cell)) :
  (forall talib, success (calculate_indicators talib data) = true -> loadable data) /\
  (loadable data -> representable data ->
   success (calculate_indicators ta_spec data) = true).
Proof.
  split.
  - intros talib H.
    destruct (calculate_indicators talib data) as [ind|] eqn:E; [|discriminate].
    apply success_body in E. now destruct (body_reads _ _ _ E).
  - intros (Hne & Hw & Ht) _. unfold calculate_indicators.
    rewrite (body_spec_Ok data (map cell_value (pd.column data 4))
               (map cell_value (pd.column data 2))
               (map cell_value (pd.column data 3))
               (map cell_value (pd.column data 5)));
      try assumption; try reflexivity;
      rewrite np_array_spec, Ht by (simpl; auto); reflexivity.
Qed.

(** X8. A non-empty input whose longest row does not have six fields fails
    with pandas' message about the number of columns, whatever its fields
    hold. *)
Theorem wrong_width_error (talib : TALIB) (data : list (list cell)) :
  data <> [] -> pd.width data <> 6 ->
  calculate_indicators talib data
  = Failure ("6 columns passed, passed data had "
             ++ pd.string_of_nat (pd.width data) ++ " columns").
Proof.
  intros Hne Hw. unfold calculate_indicators, calculate_indicators_body, pd.DataFrame.
  destruct data as [|r0 rest] eqn:E; [congruence|]. rewrite <- E in *.
  change (length ["timestamp"; "open"; "high"; "low"; "close"; "volume"]) with 6.
  apply Nat.eqb_neq in Hw. rewrite Hw. reflexivity.
Qed.

Lemma wrong_width_error_witness :
  calculate_indicators ta_spec [[one; one; one; JStr "abc"; one]]
  = Failure "6 columns passed, passed data had 5 columns".
Proof.
  apply (wrong_width_error ta_spec [[one; one; one; JStr "abc"; one]]).
  - discriminate.
  - simpl. lia.
Defined.



(** X13. The levels depend on the last twenty rows only: two inputs on which
    the call succeeds and whose last twenty high fields agree report the same
    resistance, and the same support when their last twenty low fields
    agree. *)
Theorem levels_local (talib : TALIB) (d1 d2 : list (list cell))
  (i1 i2 : indicators) :
  calculate_indicators talib d1 = Success i1 ->
  calculate_indicators talib d2 = Success i2 ->
  (lastn 20 (pd.column d1 2) = lastn 20 (pd.column d2 2) ->
   resistance i1 = resistance i2) /\
  (lastn 20 (pd.column d1 3) = lastn 20 (pd.column d2 3) ->
   support i1 = support i2).
Proof.
  intros H1 H2. apply success_body in H1, H2.
  destruct (body_reads _ _ _ H1) as (_ & Hmax1 & Hmin1 & _).
  destruct (body_reads _ _ _ H2) as (_ & Hmax2 & Hmin2 & _).
  rewrite lastn_map in Hmax1, Hmax2, Hmin1, Hmin2.
  split; intros E; rewrite E in *; congruence.
Qed.

Lemma levels_local_witness :
  exists i1 i2,
    calculate_indicators ta_spec (rows (ramp_series 40)) = Success i1 /\
    calculate_indicators ta_spec (rows (skipn 15 (ramp_series 40))) = Success i2 /\
    resistance i1 = resistance i2 /\ support i1 = support i2.
Proof.
  assert (N1 : ramp_series 40 <> []) by discriminate.
  assert (N2 : skipn 15 (ramp_series 40) <> []) by discriminate.
  pose proof (calculate_bars _ N1) as H1.
  pose proof (calculate_bars _ N2) as H2.
  destruct (levels_local ta_spec _ _ _ _ H1 H2) as (R & S).
  eexists. eexists. split; [exact H1|]. split; [exact H2|].
  split; [apply R|apply S]; reflexivity.
Defined.

(* ================================================================== *)
(** ** The command-line entry point *)

(** X10. The exit status tells whether the request could be read, not
    whether the computation succeeded: it is 0, with the result of the call
    printed, exactly when the text decodes to a dictionary that has the key
    ohlcv; otherwise it is 1 and a failure is printed. *)
Theorem exit_code_meaning (talib : TALIB) (loads : string -> result payload)
  (not_subscriptable : payload -> string) (calculate_other : payload -> analysis)
  (stdin : string) :
  (exists items ohlcv,
     loads stdin = Ok (Dict items) /\ lookup items "ohlcv" = Some ohlcv /\
     main talib loads not_subscriptable calculate_other stdin
     = {| stdout := calculate talib calculate_other ohlcv; exit_code := 0 |})
  \/
  ((forall items, loads stdin = Ok (Dict items) -> lookup items "ohlcv" = None) /\
   exit_code (main talib loads not_subscriptable calculate_other stdin) = 1%Z /\
   success (stdout (main talib loads not_subscriptable calculate_other stdin)) = false).
Proof.
  unfold main. destruct (loads stdin) as [[table|items|]|e]; cbn [bind getitem_ohlcv].
  - right. repeat split. intros items H. discriminate.
  - destruct (lookup items "ohlcv") as [v|] eqn:L.
    + left. exists items, v. repeat split. exact L.
    + right. repeat split. intros items' H. inversion H; subst. exact L.
  - right. repeat split. intros items H. discriminate.
  - right. repeat split. intros items H. discriminate.
Qed.

(** X11. When the request holds a list of rows under ohlcv the script prints
    what [calculate_indicators] returns for it and exits with status 0, also
    when that result is a failure, as it is for an empty list. *)
Theorem computation_failure_exits_zero (talib : TALIB)
  (loads : string -> result payload) (not_subscriptable : payload -> string)
  (calculate_other : payload -> analysis) (stdin : string)
  (items : list (string * payload)) (table : list (list cell)) :
  loads stdin = Ok (Dict items) -> lookup items "ohlcv" = Some (Table table) ->
  main talib loads not_subscriptable calculate_other stdin
  = {| stdout := calculate_indicators talib table; exit_code := 0 |} /\
  (~ loadable table ->
   success (stdout (main talib loads not_subscriptable calculate_other stdin)) = false).
Proof.
  intros Hl Hk. unfold main. rewrite Hl. cbn [bind getitem_ohlcv]. rewrite Hk.
  cbn [bind calculate stdout]. split; [reflexivity|].
  intros Hn. destruct (calculate_indicators talib table) as [ind|] eqn:E; [|reflexivity].
  elim Hn. apply success_body in E. now destruct (body_reads _ _ _ E).
Qed.

Lemma computation_failure_exits_zero_witness :
  main ta_spec (decoded (Ok (Dict [("ohlcv", Table [])]))) no_text no_other EmptyString
  = {| stdout := Failure "index -1 is out of bounds for axis 0 with size 0";
       exit_code := 0 |}.
Proof.
  apply (computation_failure_exits_zero ta_spec
           (decoded (Ok (Dict [("ohlcv", Table [])]))) no_text no_other EmptyString
           [("ohlcv", Table [])] []).
  - reflexivity.
  - reflexivity.
Defined.

(** X12. A request that decodes to a dictionary without the key ohlcv is
    answered with the failure whose error is the quoted key, and exit
    status 1. *)
Theorem missing_key_error (talib : TALIB) (loads : string -> result payload)
  (not_subscriptable : payload -> string) (calculate_other : payload -> analysis)
  (stdin : string) (items : list (string * payload)) :
  loads stdin = Ok (Dict items) -> lookup items "ohlcv" = None ->
  main talib loads not_subscriptable calculate_other stdin
  = {| stdout := Failure "'ohlcv'"; exit_code := 1 |}.
Proof.
  intros Hl Hk. unfold main. rewrite Hl. cbn [bind getitem_ohlcv]. now rewrite Hk.
Qed.

Lemma missing_key_error_witness :
  main ta_spec (decoded (Ok (Dict [("data", Table [])]))) no_text no_other EmptyString
  = {| stdout := Failure "'ohlcv'"; exit_code := 1 |}.
Proof.
  apply (missing_key_error ta_spec (decoded (Ok (Dict [("data", Table [])])))
           no_text no_other EmptyString [("data", Table [])]).
  - reflexivity.
  - reflexivity.
Defined.
